(** * Salt [modules/freebsdservice.py] and [states/cron.py]

    A shallow embedding of the FreeBSD service execution module and of the
    cron state module, with the properties of their boot-configuration
    rewrite, their listings and their result dictionaries.

    Text is Python 2 byte strings ([str]), modelled as [string]; the host
    collaborators ([salt.utils.which], [__salt__['cmd.run']], ...) are the
    fields of a record; the file system is a finite map from paths to
    nodes; exceptions are the [Raise] results of a small error monad. *)

From Stdlib Require Import ZArith Ascii String List Lia.
From stdpp Require Import base tactics option list sorting gmap sets strings.

Local Open Scope stdpp_scope.

(** ** Python values the modules exchange *)

Module Py.

(** The exceptions the two modules can let escape. *)
Inductive exn : Set :=
| CommandNotFoundError
| IOError
| IndexError
| ValueError.

Inductive result (A : Type) : Type :=
| Ok (a : A)
| Raise (e : exn).
Global Arguments Ok {A} a.
Global Arguments Raise {A} e.

Definition bind {A B : Type} (m : result A) (k : A → result B) : result B :=
  match m with
  | Ok a => k a
  | Raise e => Raise e
  end.

Global Instance result_ret : MRet result := @Ok.
Global Instance result_bind : MBind result := λ A B k m, bind m k.
Global Instance result_fmap : FMap result :=
  λ A B f m, match m with Ok a => Ok (f a) | Raise e => Raise e end.

Definition raises {A : Type} (m : result A) : bool :=
  match m with Ok _ => false | Raise _ => true end.

(** What [_get_rcvar] hands back: [False], [None] or a string. *)
Inductive value : Set :=
| PyFalse
| PyNone
| PyStr (s : string).

(** Python truth of such a value ([if not rcvar]). *)
Definition truthy (v : value) : bool :=
  match v with
  | PyStr (String _ _) => true
  | _ => false
  end.

End Py.

(** ** The [str] methods and [os.path] helpers the modules call *)

Module PyStr.

Definition dq : string := String "034"%char "".
Definition nl : string := String "010"%char "".

(** ['{0}="{1}"{2}'.format(rcvar, val, rest)] *)
Definition assign (rcvar val rest : string) : string :=
  rcvar +:+ "=" +:+ dq +:+ val +:+ dq +:+ rest.

(** [str.isspace] of a byte in the C locale. *)
Definition is_space (c : ascii) : bool := Ascii.is_space c.

Definition is_nl (c : ascii) : bool := Ascii.eqb c "010"%char.
Definition is_cr (c : ascii) : bool := Ascii.eqb c "013"%char.

Definition is_upper (c : ascii) : bool :=
  let n := nat_of_ascii c in (65 <=? n)%nat && (n <=? 90)%nat.
Definition is_lower (c : ascii) : bool :=
  let n := nat_of_ascii c in (97 <=? n)%nat && (n <=? 122)%nat.
Definition to_lower (c : ascii) : ascii :=
  if is_upper c then ascii_of_nat (nat_of_ascii c + 32) else c.

(** [s.startswith(p)] *)
Definition startswith (p s : string) : bool := String.prefix p s.

(** [s.endswith(p)] *)
Fixpoint endswith (p s : string) : bool :=
  String.eqb p s ||
  match s with
  | "" => false
  | String _ s' => endswith p s'
  end.

(** [needle in s] *)
Fixpoint contains (needle s : string) : bool :=
  startswith needle s ||
  match s with
  | "" => false
  | String _ s' => contains needle s'
  end.

(** [s[n:]] *)
Fixpoint drop_str (n : nat) (s : string) : string :=
  match n, s with
  | O, _ => s
  | S _, "" => ""
  | S n', String _ s' => drop_str n' s'
  end.

(** [s[:n]] *)
Fixpoint take_str (n : nat) (s : string) : string :=
  match n, s with
  | O, _ => ""
  | S _, "" => ""
  | S n', String c s' => String c (take_str n' s')
  end.

(** [''.join(ls)], which is what [writelines] puts in the file. *)
Fixpoint join (ls : list string) : string :=
  match ls with
  | [] => ""
  | l :: ls' => l +:+ join ls'
  end.

(** [s.split()]: the maximal runs of bytes that are not white space.
    [tok] is the run being read. *)
Fixpoint split_go (tok : string) (s : string) : list string :=
  match s with
  | "" => match tok with "" => [] | _ => [tok] end
  | String c s' =>
      if is_space c
      then match tok with
           | "" => split_go "" s'
           | _ => tok :: split_go "" s'
           end
      else split_go (tok +:+ String c "") s'
  end.
Definition split : string → list string := split_go "".

(** [s.split(sep, maxsplit)] for a one-byte separator. *)
Fixpoint split_sep (sep : ascii) (s : string) (maxsplit : nat) {struct s}
  : list string :=
  match maxsplit with
  | O => [s]
  | S m =>
      match s with
      | "" => [""]
      | String c s' =>
          if Ascii.eqb c sep then "" :: split_sep sep s' m
          else match split_sep sep s' maxsplit with
               | [] => [String c ""]
               | l :: ls => String c l :: ls
               end
      end
  end.

(** [s.splitlines()] of a byte string: breaks at LF, CR and CR LF, the
    line ends dropped. *)
Fixpoint splitlines (s : string) : list string :=
  match s with
  | "" => []
  | String c s' =>
      if is_nl c then "" :: splitlines s'
      else if is_cr c then
        match s' with
        | String c' s'' =>
            if is_nl c' then "" :: splitlines s'' else "" :: splitlines s'
        | "" => [""]
        end
      else match splitlines s' with
           | [] => [String c ""]
           | l :: ls => String c l :: ls
           end
  end.

(** [for line in ifile]: the lines of a file opened with mode ['r'], each
    with its LF; the last one has none when the file does not end in LF. *)
Fixpoint file_lines (s : string) : list string :=
  match s with
  | "" => []
  | String c s' =>
      if is_nl c then nl :: file_lines s'
      else match file_lines s' with
           | [] => [String c ""]
           | l :: ls => String c l :: ls
           end
  end.

(** [s.isupper()]: a cased byte exists and no cased byte is lower case. *)
Fixpoint has_upper (s : string) : bool :=
  match s with "" => false | String c s' => is_upper c || has_upper s' end.
Fixpoint has_lower (s : string) : bool :=
  match s with "" => false | String c s' => is_lower c || has_lower s' end.
Definition isupper (s : string) : bool := has_upper s && negb (has_lower s).

(** [s.lower()] *)
Fixpoint lower (s : string) : string :=
  match s with "" => "" | String c s' => String (to_lower c) (lower s') end.

(** [s.replace(old, new)] for a non-empty [old]; [skip] counts the bytes
    of a match that are still to be passed over. *)
Fixpoint replace_go (old new : string) (skip : nat) (s : string) : string :=
  match s with
  | "" => ""
  | String c s' =>
      match skip with
      | S k => replace_go old new k s'
      | O =>
          if startswith old s
          then new +:+ replace_go old new (String.length old - 1) s'
          else String c (replace_go old new 0 s')
      end
  end.
Definition replace (old new s : string) : string := replace_go old new 0 s.

(** [os.path.basename]: what follows the last slash. *)
Fixpoint basename (p : string) : string :=
  match p with
  | "" => ""
  | String c p' =>
      if contains "/" p' then basename p'
      else if Ascii.eqb c "/"%char then p' else p
  end.

(** [os.path.join(a, b)] *)
Definition path_join (a b : string) : string :=
  if startswith "/" b then b
  else if String.eqb a "" || endswith "/" a then a +:+ b
  else a +:+ "/" +:+ b.

End PyStr.

Import Py PyStr.

(** ** The host the modules run on *)

Module Host.

(** The collaborators salt injects. [config_option] is the value of
    [__salt__['config.option']('service.config', default='/etc/rc.conf')]. *)
Record host : Type := {
  which : string → option string;
  cmd_run : string → string;
  cmd_run_stdout : string → string;
  cmd_retcode : string → Z;
  config_option : string
}.

Inductive node : Set :=
| File (content : string)
| Dir.

Global Instance node_eq_dec : EqDecision node.
Proof. solve_decision. Defined.

(** [os.path.exists] and [os.path.isdir] *)
Definition path_exists (σ : gmap string node) (p : string) : bool :=
  match σ !! p with Some _ => true | None => false end.
Definition path_isdir (σ : gmap string node) (p : string) : bool :=
  match σ !! p with Some Dir => true | _ => false end.

(** What the disk does to one [fopen(config, 'w')] ... [writelines] ...
    close: nothing, a refused open (permissions, a missing directory), or a
    failure once [n] bytes of the new text are on disk. Reading is taken to
    fail only on a path that is no regular file. *)
Inductive fault : Set :=
| NoFault
| OpenFails
| WriteFails (n : nat).

(** [with salt.utils.fopen(path, 'r') as ifile: for line in ifile] *)
Definition read_lines (σ : gmap string node) (path : string)
  : result (list string) :=
  match σ !! path with
  | Some (File c) => Ok (file_lines c)
  | Some Dir => Raise IOError
  | None => Raise IOError
  end.

(** [with salt.utils.fopen(path, 'w') as ofile: ofile.writelines(nlines)]:
    mode ['w'] empties the file when it opens it, then the text goes in
    from its first byte on. *)
Definition write_lines (flt : fault) (σ : gmap string node) (path : string)
    (nlines : list string) : result unit * gmap string node :=
  match σ !! path with
  | Some Dir => (Raise IOError, σ)
  | _ =>
      match flt with
      | NoFault => (Ok (), <[path := File (join nlines)]> σ)
      | OpenFails => (Raise IOError, σ)
      | WriteFails n =>
          (Raise IOError, <[path := File (take_str n (join nlines))]> σ)
      end
  end.

(** The text of a regular file, [""] for anything else. *)
Definition content_of (σ : gmap string node) (path : string) : string :=
  match σ !! path with
  | Some (File c) => c
  | _ => ""
  end.

End Host.

Import Host.

(** ** [salt/modules/freebsdservice.py] *)

Module FreeBSDService.

(** Python's [sorted] on a list of byte strings. *)
Definition sorted (l : list string) : list string := merge_sort String.le l.

(** [_cmd]. The memoisation of [salt.utils.memoize] is not visible on a
    host whose [which] answers the same each time. *)
Definition _cmd (h : host) : result string :=
  match which h "service" with
  | Some service => Ok service
  | None => Raise CommandNotFoundError
  end.

(** The loop of [_get_rcscript]: the first line that ends with
    [os.path.sep] and the name. *)
Fixpoint rcscript_scan (name : string) (lines : list string) : option string :=
  match lines with
  | [] => None
  | line :: rest =>
      if endswith ("/" +:+ name) line then Some line
      else rcscript_scan name rest
  end.

(** [_get_rcscript]: the full path of the rc script of a service, [None]
    when [service -r] lists none. *)
Definition _get_rcscript (h : host) (name : string) : result (option string) :=
  service ← _cmd h;
  Ok (rcscript_scan name (splitlines (cmd_run_stdout h (service +:+ " -r")))).

Definition get_all (h : host) : result (list string) :=
  service ← _cmd h;
  Ok (sorted (filter (λ srv, negb (isupper srv))
                     (splitlines (cmd_run h (service +:+ " -l"))))).

Definition available (h : host) (name : string) : result bool :=
  all ← get_all h;
  Ok (bool_decide (name ∈ all)).

(** The loop of [_get_rcvar]. *)
Fixpoint rcvar_scan (lines : list string) : result value :=
  match lines with
  | [] => Ok PyNone
  | line :: rest =>
      if negb (contains ("_enable=" +:+ dq) line) then rcvar_scan rest
      else match split_sep "="%char line 1 with
           | [rcvar; _] => Ok (PyStr rcvar)
           | _ => Raise ValueError
           end
  end.

Definition _get_rcvar (h : host) (name : string) : result value :=
  av ← available h name;
  if negb av then Ok PyFalse
  else
    service ← _cmd h;
    rcvar_scan
      (splitlines (cmd_run_stdout h (service +:+ " " +:+ name +:+ " rcvar"))).

(** The loop of [enabled]. *)
Fixpoint enabled_scan (lines : list string) : result bool :=
  match lines with
  | [] => Ok false
  | line :: rest =>
      if negb (contains ("_enable=" +:+ dq) line) then enabled_scan rest
      else match split_sep "034"%char line 2 with
           | [_; state; _] =>
               Ok (bool_decide (lower state ∈ ["yes"; "true"; "on"; "1"]))
           | _ => Raise ValueError
           end
  end.

Definition enabled (h : host) (name : string) : result bool :=
  av ← available h name;
  if negb av then Ok false
  else
    service ← _cmd h;
    enabled_scan
      (splitlines (cmd_run_stdout h (service +:+ " " +:+ name +:+ " rcvar"))).

Definition disabled (h : host) (name : string) : result bool :=
  en ← enabled h name;
  Ok (negb en).

(** The workaround loop of [get_enabled]; [ret] is the list it appends to. *)
Fixpoint get_enabled_loop (h : host) (σ : gmap string node)
    (svcs : list string) (ret : list string) : result (list string) :=
  match svcs with
  | [] => Ok ret
  | svc :: rest =>
      if bool_decide (svc ∈ ret) then get_enabled_loop h σ rest ret
      else if negb (path_exists σ ("/etc/rc.conf.d/" +:+ svc))
      then get_enabled_loop h σ rest ret
      else
        match enabled h svc with
        | Raise e => Raise e
        | Ok true => get_enabled_loop h σ rest (ret ++ [svc])
        | Ok false => get_enabled_loop h σ rest ret
        end
  end.

Definition get_enabled (h : host) (σ : gmap string node)
  : result (list string) :=
  service ← _cmd h;
  let ret := basename <$> splitlines (cmd_run h (service +:+ " -e")) in
  all ← get_all h;
  ret' ← get_enabled_loop h σ all ret;
  Ok (sorted ret').

Definition get_disabled (h : host) (σ : gmap string node)
  : result (list string) :=
  en_ ← get_enabled h σ;
  all_ ← get_all h;
  Ok (sorted (elements ((list_to_set all_ : gset string) ∖ list_to_set en_))).

(** The loop of [_switch] over the lines of the existing file; [nlines]
    and [edited] are the two variables it updates. *)
Fixpoint switch_loop (rcvar val : string) (lines : list string)
    (nlines : list string) (edited : bool) : result (list string * bool) :=
  match lines with
  | [] => Ok (nlines, edited)
  | line :: rest =>
      if negb (startswith (rcvar +:+ "=") line)
      then switch_loop rcvar val rest (nlines ++ [line]) edited
      else
        match split line with
        | [] => Raise IndexError
        | tok :: _ =>
            let rest_ := drop_str (String.length tok) line in
            switch_loop rcvar val rest
              (nlines ++ [assign rcvar val rest_]) true
        end
  end.

(** [_switch(name, on, **kwargs)]; [config] is [kwargs.get('config')]
    when the caller gave one. The result comes with the file system the
    call leaves behind, also when it raises. *)
Definition _switch (h : host) (flt : fault) (name : string) (on : bool)
    (config : option string) (σ : gmap string node)
  : result bool * gmap string node :=
  match available h name with
  | Raise e => (Raise e, σ)
  | Ok false => (Ok false, σ)
  | Ok true =>
  match _get_rcvar h name with
  | Raise e => (Raise e, σ)
  | Ok rcvar_ =>
  if negb (truthy rcvar_) then (Ok false, σ)
  else
  let rcvar := match rcvar_ with PyStr s => s | _ => "" end in
  let config := default (config_option h) config in
  let rcdir := "/etc/rc.conf.d" in
  if String.eqb config "" && (negb (path_exists σ rcdir) || negb (path_isdir σ rcdir))
  then (Ok false, σ)
  else
  let config :=
    if String.eqb config ""
    then path_join rcdir (replace "_enable" "" rcvar)
    else config in
  let val := if on then "YES" else "NO" in
  match (if path_exists σ config
         then lines ← read_lines σ config; switch_loop rcvar val lines [] false
         else Ok ([], false)) with
  | Raise e => (Raise e, σ)
  | Ok (nlines, edited) =>
  let nlines :=
    if negb edited then nlines ++ [assign rcvar val nl] else nlines in
  match write_lines flt σ config nlines with
  | (Raise e, σ') => (Raise e, σ')
  | (Ok _, σ') => (Ok true, σ')
  end
  end
  end
  end.

Definition enable (h : host) (flt : fault) (name : string)
    (config : option string) (σ : gmap string node) :=
  _switch h flt name true config σ.

Definition disable (h : host) (flt : fault) (name : string)
    (config : option string) (σ : gmap string node) :=
  _switch h flt name false config σ.

(** [start], [stop], [restart], [reload], [status]: the command line is
    built first, so [_cmd] is asked before anything runs. The call of
    [salt.utils.daemonize_if] in [restart] belongs to the host. *)
Definition run_action (h : host) (name action : string) : result bool :=
  service ← _cmd h;
  Ok (Z.eqb (cmd_retcode h (service +:+ " " +:+ name +:+ " " +:+ action)) 0).

Definition start (h : host) (name : string) := run_action h name "onestart".
Definition stop (h : host) (name : string) := run_action h name "onestop".
Definition restart (h : host) (name : string) := run_action h name "onerestart".
Definition reload (h : host) (name : string) := run_action h name "onereload".
Definition status (h : host) (name : string) := run_action h name "onestatus".

End FreeBSDService.

Import FreeBSDService.

(** ** [salt/states/cron.py] *)

Module Cron.

(** The dictionary a state function returns. *)
Record ret : Type := {
  ret_name : string;
  ret_result : bool;
  ret_changes : gmap string string;
  ret_comment : string
}.

(** A function of the cron execution module, [__salt__['cron.set_job']] or
    [__salt__['cron.rm_job']]: it acts on a world [W] (the crontabs) and hands
    back a status word or the error text of the commit, unless it raises. *)
Definition job_call (W : Type) : Type :=
  string → string → string → string → string → string → string →
  W → result string * W.

(** The body of [present] once [data] is known. *)
Definition present_ret (name user data : string) : ret :=
  if String.eqb data "present" then
    {| ret_name := name; ret_result := true; ret_changes := ∅;
       ret_comment := "Cron " +:+ name +:+ " already present" |}
  else if String.eqb data "new" then
    {| ret_name := name; ret_result := true; ret_changes := {[ user := name ]};
       ret_comment := "Cron " +:+ name +:+ " added to " +:+ user +:+ "'s crontab" |}
  else if String.eqb data "updated" then
    {| ret_name := name; ret_result := true; ret_changes := {[ user := name ]};
       ret_comment := "Cron " +:+ name +:+ " updated" |}
  else
    {| ret_name := name; ret_result := false; ret_changes := ∅;
       ret_comment := "Cron " +:+ name +:+ " for user " +:+ user
                      +:+ " failed to commit with error " +:+ nl +:+ data |}.

Definition present {W : Type} (set_job : job_call W)
    (name user minute hour daymonth month dayweek : string) (w : W)
  : result ret * W :=
  match set_job user minute hour daymonth month dayweek name w with
  | (Raise e, w') => (Raise e, w')
  | (Ok data, w') => (Ok (present_ret name user data), w')
  end.

(** The body of [absent] once [data] is known. *)
Definition absent_ret (name user data : string) : ret :=
  if String.eqb data "absent" then
    {| ret_name := name; ret_result := true; ret_changes := ∅;
       ret_comment := "Cron " +:+ name +:+ " already absent" |}
  else if String.eqb data "removed" then
    {| ret_name := name; ret_result := true; ret_changes := {[ user := name ]};
       ret_comment := "Cron " +:+ name +:+ " removed from " +:+ user +:+ "'s crontab" |}
  else
    {| ret_name := name; ret_result := false; ret_changes := ∅;
       ret_comment := "Cron " +:+ name +:+ " for user " +:+ user
                      +:+ " failed to commit with error " +:+ nl +:+ data |}.

Definition absent {W : Type} (rm_job : job_call W)
    (name user minute hour daymonth month dayweek : string) (w : W)
  : result ret * W :=
  match rm_job user minute hour daymonth month dayweek name w with
  | (Raise e, w') => (Raise e, w')
  | (Ok data, w') => (Ok (absent_ret name user data), w')
  end.

End Cron.

Import Cron.

(** ** The rewrite of [_switch], line by line

    The vocabulary the properties of [_switch] are stated in. *)

Module Rewrite.

(** The line sets the variable: [line.startswith('{0}='.format(rcvar))]. *)
Definition sets (rcvar line : string) : bool := startswith (rcvar +:+ "=") line.

(** ['YES'] or ['NO']. *)
Definition yes_no (on : bool) : string := if on then "YES" else "NO".

(** The white space a string starts with, and the string without it. *)
Fixpoint leading_ws (s : string) : string :=
  match s with
  | "" => ""
  | String c s' => if is_space c then String c (leading_ws s') else ""
  end.
Fixpoint lstrip (s : string) : string :=
  match s with
  | "" => ""
  | String c s' => if is_space c then lstrip s' else s
  end.

(** The bytes up to the first white space, and the string from there on. *)
Fixpoint take_word (s : string) : string :=
  match s with
  | "" => ""
  | String c s' => if is_space c then "" else String c (take_word s')
  end.
Fixpoint drop_word (s : string) : string :=
  match s with
  | "" => ""
  | String c s' => if is_space c then s else drop_word s'
  end.

(** The first white-space-delimited token of a line, and everything after
    it. *)
Definition first_token (line : string) : string := take_word (lstrip line).
Definition after_first_token (line : string) : string := drop_word (lstrip line).

(** What the loop appends to [nlines] for one line of the file. *)
Definition rewrite_line (rcvar val line : string) : string :=
  if sets rcvar line
  then assign rcvar val (drop_str (String.length (first_token line)) line)
  else line.

(** The list [writelines] is given for a file with these lines. *)
Definition switch_lines (rcvar val : string) (lines : list string) : list string :=
  (rewrite_line rcvar val <$> lines)
  ++ (if existsb (sets rcvar) lines then [] else [assign rcvar val nl]).

(** The file [_switch] edits: the [config] argument or the configured
    default, and [/etc/rc.conf.d/<service>] for the empty string when that
    directory is there. *)
Definition config_path (h : host) (config : option string) (rcvar : string)
    (σ : gmap string node) : option string :=
  let cfg := default (config_option h) config in
  if String.eqb cfg "" then
    if path_isdir σ "/etc/rc.conf.d"
    then Some (path_join "/etc/rc.conf.d" (replace "_enable" "" rcvar))
    else None
  else Some cfg.

(** No line feed but, at most, as the last byte. *)
Fixpoint nl_last (s : string) : bool :=
  match s with
  | "" => true
  | String c s' => if is_nl c then String.eqb s' "" else nl_last s'
  end.

(** The last byte is a line feed. *)
Fixpoint ends_nl (s : string) : bool :=
  match s with
  | "" => false
  | String c "" => is_nl c
  | String _ s' => ends_nl s'
  end.

Fixpoint nl_free (s : string) : bool :=
  match s with
  | "" => true
  | String c s' => negb (is_nl c) && nl_free s'
  end.

Fixpoint ws_free (s : string) : bool :=
  match s with
  | "" => true
  | String c s' => negb (is_space c) && ws_free s'
  end.

(** The shape of what iterating over a file yields: no line is empty, a line
    feed ends a line, and only the last line can lack one. *)
Fixpoint lines_ok (ls : list string) : Prop :=
  match ls with
  | [] => True
  | l :: ls' =>
      l ≠ "" ∧ nl_last l = true ∧ (ls' = [] ∨ ends_nl l = true) ∧ lines_ok ls'
  end.

(** How often a byte occurs in a string. *)
Fixpoint count_char (c : ascii) (s : string) : nat :=
  match s with
  | "" => 0
  | String c' s' => (if Ascii.eqb c' c then 1 else 0) + count_char c s'
  end.

(** The line of the [rcvar] output that [_get_rcvar] and [enabled] read: the
    first one with [_enable=] and a double quote after it. *)
Fixpoint rcvar_line (lines : list string) : option string :=
  match lines with
  | [] => None
  | line :: rest =>
      if contains ("_enable=" +:+ dq) line then Some line else rcvar_line rest
  end.

(** The truth of a value of [rc.conf], as [enabled] reads it. *)
Definition value_on (state : string) : bool :=
  bool_decide (lower state ∈ ["yes"; "true"; "on"; "1"]).

(** How many lines set the variable. *)
Definition count_sets (rcvar : string) (lines : list string) : nat :=
  length (filter (λ line, sets rcvar line = true) lines).

End Rewrite.

Import Rewrite.

(** ** Sample hosts *)

Module Sample.

(** A FreeBSD host with the services [sshd] (enabled) and [ntpd]. *)
Definition h0 : host := {|
  which := λ p, if String.eqb p "service" then Some "/usr/sbin/service" else None;
  cmd_run := λ c,
    if String.eqb c "/usr/sbin/service -l"
    then "DAEMON" +:+ nl +:+ "sshd" +:+ nl +:+ "ntpd" +:+ nl
    else if String.eqb c "/usr/sbin/service -e" then "/etc/rc.d/sshd" +:+ nl
    else "";
  cmd_run_stdout := λ c,
    if String.eqb c "/usr/sbin/service sshd rcvar"
    then "# sshd" +:+ nl +:+ "#" +:+ nl +:+ assign "sshd_enable" "YES" nl
    else if String.eqb c "/usr/sbin/service ntpd rcvar"
    then "# ntpd" +:+ nl +:+ assign "ntpd_enable" "NO" nl
    else "";
  cmd_retcode := λ _, 0%Z;
  config_option := "/etc/rc.conf"
|}.

(** A host without the [service] executable. *)
Definition h_down : host := {|
  which := λ _, None;
  cmd_run := λ _, "";
  cmd_run_stdout := λ _, "";
  cmd_retcode := λ _, 127%Z;
  config_option := "/etc/rc.conf"
|}.

(** The host [h0] with a torn line in the [rcvar] output of [sshd]: the
    closing double quote is missing. *)
Definition h_torn : host := {|
  which := which h0;
  cmd_run := cmd_run h0;
  cmd_run_stdout := λ c,
    if String.eqb c "/usr/sbin/service sshd rcvar"
    then "# sshd" +:+ nl +:+ "sshd_enable=" +:+ dq +:+ "YES" +:+ nl
    else "";
  cmd_retcode := cmd_retcode h0;
  config_option := ""
|}.

(** A host whose [service -r] lists three rc scripts. *)
Definition h_rc : host := {|
  which := which h0;
  cmd_run := cmd_run h0;
  cmd_run_stdout := λ c,
    if String.eqb c "/usr/sbin/service -r"
    then "/etc/rc.d/ntpd" +:+ nl +:+ "/etc/rc.d/sshd" +:+ nl
         +:+ "/usr/local/etc/rc.d/sshd" +:+ nl
    else "";
  cmd_retcode := cmd_retcode h0;
  config_option := "/etc/rc.conf"
|}.

Definition rc_conf : string := "/etc/rc.conf".

(** An [rc.conf] whose last line has no line feed. *)
Definition fs_open : gmap string node := {[ rc_conf := File "foo=bar" ]}.


(** An [rc.conf] with a comment, an unrelated line and two lines for
    [sshd_enable], the second with a trailing comment. *)
Definition fs_dup : gmap string node :=
  {[ rc_conf :=
       File ("# boot" +:+ nl +:+ assign "sshd_enable" "NO" nl
             +:+ "hostname=h" +:+ nl +:+ assign "sshd_enable" "NO" (" # again" +:+ nl)) ]}.

(** A cron execution module whose commit always fails. *)
Definition failing_job : job_call unit :=
  λ _ _ _ _ _ _ _ w, (Ok "crontab: temp file busy", w).

End Sample.

Import Sample.

(** * Properties *)

(** ** The string helpers on small inputs *)

Example split_ex :
  split ("sshd_enable=" +:+ dq +:+ "NO" +:+ dq +:+ "  # keep" +:+ nl)
  = ["sshd_enable=" +:+ dq +:+ "NO" +:+ dq; "#"; "keep"].
Proof. reflexivity. Qed.

Example split_sep_ex :
  split_sep "034"%char ("a=" +:+ dq +:+ "YES" +:+ dq +:+ " # " +:+ dq +:+ "x" +:+ dq) 2
  = ["a="; "YES"; " # " +:+ dq +:+ "x" +:+ dq].
Proof. reflexivity. Qed.

Example splitlines_ex :
  splitlines ("a" +:+ nl +:+ String "013"%char nl +:+ "b" +:+ nl) = ["a"; ""; "b"].
Proof. reflexivity. Qed.

Example file_lines_ex :
  file_lines ("a" +:+ nl +:+ nl +:+ "b") = ["a" +:+ nl; nl; "b"].
Proof. reflexivity. Qed.

Example replace_ex : replace "_enable" "" "sshd_enable" = "sshd".
Proof. reflexivity. Qed.

Example basename_ex : basename "/etc/rc.d/sshd" = "sshd".
Proof. reflexivity. Qed.

Example isupper_ex : isupper "DAEMON" = true ∧ isupper "sshd" = false ∧ isupper "123" = false.
Proof. repeat split; reflexivity. Qed.

(** ** Byte strings *)

Section Strings.

Implicit Types (s t p : string) (c : ascii).

Lemma str_app_cons c s t : String c s +:+ t = String c (s +:+ t).
Proof. reflexivity. Qed.

Lemma str_app_nil_l s : "" +:+ s = s.
Proof. reflexivity. Qed.

Lemma str_app_nil_r s : s +:+ "" = s.
Proof. induction s as [|c s IH]; [done|]. by rewrite str_app_cons, IH. Qed.

Lemma str_app_assoc s t p : (s +:+ t) +:+ p = s +:+ (t +:+ p).
Proof. induction s as [|c s IH]; [done|]. by rewrite !str_app_cons, IH. Qed.

Lemma str_length_app s t :
  String.length (s +:+ t) = String.length s + String.length t.
Proof. induction s as [|c s IH]; [done|]. rewrite str_app_cons. simpl. by rewrite IH. Qed.

Lemma str_app_eq_nil s t : s +:+ t = "" → s = "" ∧ t = "".
Proof. destruct s; [done|]. by rewrite str_app_cons. Qed.

Lemma startswith_app p s : startswith p (p +:+ s) = true.
Proof.
  unfold startswith. induction p as [|c p IH]; [by destruct s|].
  rewrite str_app_cons. simpl. destruct (ascii_dec c c); [done|congruence].
Qed.

Lemma startswith_inv p s : startswith p s = true → ∃ t, s = p +:+ t.
Proof.
  unfold startswith. revert s. induction p as [|c p IH]; intros s H.
  - by exists s.
  - destruct s as [|c' s]; [done|]. simpl in H.
    destruct (ascii_dec c c') as [->|]; [|done].
    destruct (IH _ H) as [t ->]. by exists t.
Qed.

Lemma drop_str_app p s : drop_str (String.length p) (p +:+ s) = s.
Proof. induction p as [|c p IH]; [done|]. by rewrite str_app_cons. Qed.

Lemma drop_str_app_le n p s :
  n ≤ String.length p → drop_str n (p +:+ s) = drop_str n p +:+ s.
Proof.
  revert p. induction n as [|n IH]; intros p Hn; [done|].
  destruct p as [|c p]; simpl in Hn; [lia|].
  rewrite str_app_cons. simpl. apply IH. lia.
Qed.

Lemma take_drop_str n s : take_str n s +:+ drop_str n s = s.
Proof.
  revert s. induction n as [|n IH]; intros [|c s]; try done.
  simpl. by rewrite str_app_cons, IH.
Qed.

Lemma join_app (l1 l2 : list string) : join (l1 ++ l2) = join l1 +:+ join l2.
Proof.
  induction l1 as [|l l1 IH]; [done|]. simpl. by rewrite IH, str_app_assoc.
Qed.

Lemma join_file_lines s : join (file_lines s) = s.
Proof.
  induction s as [|c s IH]; [done|]. simpl.
  destruct (is_nl c) eqn:Hc.
  - simpl. rewrite IH. apply Ascii.eqb_eq in Hc as ->. done.
  - destruct (file_lines s) as [|l ls]; simpl in *; by rewrite <- IH.
Qed.

End Strings.

(** ** [str.split] and the first token of a line *)

Section Tokens.

Implicit Types (s t tok : string) (c : ascii).

Lemma lstrip_decomp s : leading_ws s +:+ lstrip s = s.
Proof.
  induction s as [|c s IH]; [done|]. simpl.
  destruct (is_space c); [|done]. by rewrite str_app_cons, IH.
Qed.

Lemma word_decomp s : take_word s +:+ drop_word s = s.
Proof.
  induction s as [|c s IH]; [done|]. simpl.
  destruct (is_space c); [done|]. by rewrite str_app_cons, IH.
Qed.

(** A line is its leading white space, its first token and the rest. *)
Lemma line_decomp s :
  s = leading_ws s +:+ first_token s +:+ after_first_token s.
Proof.
  unfold first_token, after_first_token.
  by rewrite word_decomp, lstrip_decomp.
Qed.

Lemma take_word_ws_free s : ws_free (take_word s) = true.
Proof.
  induction s as [|c s IH]; [done|]. simpl.
  destruct (is_space c) eqn:Hc; [done|]. simpl. by rewrite Hc, IH.
Qed.

Lemma lstrip_no_ws c s : is_space c = false → lstrip (String c s) = String c s.
Proof. intros H. simpl. by rewrite H. Qed.

Lemma leading_ws_no_ws s : lstrip s = s → s = "" ∨ leading_ws s = "".
Proof.
  destruct s as [|c s]; [by left|]. simpl.
  destruct (is_space c) eqn:Hc; [|by right].
  intros H. pose proof (lstrip_decomp s) as Hd.
  rewrite H in Hd. apply (f_equal String.length) in Hd.
  rewrite str_length_app in Hd. simpl in Hd. lia.
Qed.

Lemma split_go_tok tok s :
  tok ≠ "" →
  split_go tok s = (tok +:+ take_word s) :: split_go "" (drop_word s).
Proof.
  revert tok. induction s as [|c s IH]; intros tok Htok.
  - simpl. rewrite str_app_nil_r. by destruct tok.
  - simpl. destruct (is_space c) eqn:Hc.
    + rewrite str_app_nil_r. simpl. rewrite Hc. by destruct tok.
    + rewrite IH.
      * by rewrite str_app_assoc.
      * intros [? _]%str_app_eq_nil. done.
Qed.

Lemma split_go_lstrip s : split_go "" s = split_go "" (lstrip s).
Proof.
  induction s as [|c s IH]; [done|]. simpl.
  destruct (is_space c) eqn:Hc; [done|]. simpl. by rewrite Hc.
Qed.

(** [s.split()[0]] is the first token whenever [s] is not all white space. *)
Lemma split_first s :
  lstrip s ≠ "" →
  split s = first_token s :: split (after_first_token s).
Proof.
  unfold split, first_token, after_first_token. intros Hne.
  rewrite split_go_lstrip.
  destruct (lstrip s) as [|c r] eqn:Hr; [done|].
  assert (is_space c = false) as Hc.
  { clear -Hr. induction s as [|c' s IH]; [done|]. simpl in Hr.
    destruct (is_space c') eqn:Hc'; [auto|]. by simplify_eq. }
  simpl. rewrite Hc, str_app_nil_l.
  by rewrite split_go_tok.
Qed.

Lemma lstrip_app_nonspace p c t :
  is_space c = false → lstrip (p +:+ String c t) ≠ "".
Proof.
  intros Hc. induction p as [|c' p IH].
  - simpl. by rewrite Hc.
  - rewrite str_app_cons. simpl. by destruct (is_space c').
Qed.

(** A line that sets a variable has a first token: [line.split()[0]] never
    raises in [_switch]. *)
Lemma split_sets rcvar line :
  sets rcvar line = true →
  split line = first_token line :: split (after_first_token line).
Proof.
  intros [t ->]%startswith_inv. apply split_first.
  rewrite str_app_assoc. change ("=" +:+ t) with (String "="%char t).
  by apply lstrip_app_nonspace.
Qed.

End Tokens.

(** ** The loop of [_switch] *)

Section Loop.

Implicit Types (rcvar val line : string) (lines nlines : list string).

Lemma switch_loop_spec rcvar val lines nlines edited :
  switch_loop rcvar val lines nlines edited
  = Ok (nlines ++ (rewrite_line rcvar val <$> lines),
        edited || existsb (sets rcvar) lines).
Proof.
  revert nlines edited. induction lines as [|line lines IH]; intros nlines edited.
  - simpl. by rewrite List.app_nil_r, orb_false_r.
  - rewrite fmap_cons. cbn [switch_loop existsb].
    change (startswith (rcvar +:+ "=") line) with (sets rcvar line).
    unfold rewrite_line at 1.
    destruct (sets rcvar line) eqn:Hs; cbn [negb].
    + rewrite (split_sets _ _ Hs), IH, <- List.app_assoc.
      by rewrite orb_true_r.
    + rewrite IH, <- List.app_assoc. done.
Qed.

Lemma existsb_sets_false rcvar lines :
  existsb (sets rcvar) lines = false ↔
  Forall (λ line, sets rcvar line = false) lines.
Proof.
  induction lines as [|l ls IH]; simpl.
  - split; [constructor|done].
  - rewrite orb_false_iff, IH. split.
    + intros [??]. by constructor.
    + by inversion 1.
Qed.

Lemma rewrite_line_id rcvar val lines :
  Forall (λ line, sets rcvar line = false) lines →
  rewrite_line rcvar val <$> lines = lines.
Proof.
  induction 1 as [|l ls Hl _ IH]; [done|].
  rewrite fmap_cons, IH. unfold rewrite_line. by rewrite Hl.
Qed.

End Loop.

(** ** [_switch] as a whole *)

Section Switch.

Implicit Types (h : host) (σ : gmap string node) (rcvar path name : string).

Lemma get_rcvar_available h name rcvar :
  _get_rcvar h name = Ok (PyStr rcvar) → available h name = Ok true.
Proof.
  unfold _get_rcvar. destruct (available h name) as [[]|e]; simpl; done.
Qed.

Lemma truthy_str rcvar : rcvar ≠ "" → truthy (PyStr rcvar) = true.
Proof. by destruct rcvar. Qed.

Lemma path_isdir_exists σ p : path_isdir σ p = true → path_exists σ p = true.
Proof. unfold path_isdir, path_exists. by destruct (σ !! p). Qed.

(** The two tests [_switch] makes on the configuration file name, in terms
    of [config_path]. *)
Lemma config_path_tests h config rcvar σ :
  let cfg := default (config_option h) config in
  match config_path h config rcvar σ with
  | Some path =>
      String.eqb cfg "" && (negb (path_exists σ "/etc/rc.conf.d")
                            || negb (path_isdir σ "/etc/rc.conf.d")) = false ∧
      (if String.eqb cfg ""
       then path_join "/etc/rc.conf.d" (replace "_enable" "" rcvar)
       else cfg) = path
  | None =>
      String.eqb cfg "" && (negb (path_exists σ "/etc/rc.conf.d")
                            || negb (path_isdir σ "/etc/rc.conf.d")) = true
  end.
Proof.
  unfold config_path. cbv zeta.
  destruct (String.eqb _ ""); [|done].
  destruct (path_isdir σ "/etc/rc.conf.d") eqn:Hd.
  - by rewrite (path_isdir_exists _ _ Hd).
  - by rewrite orb_true_r.
Qed.

(** What one run of [_switch] does once the service has an rcvar and the
    file to edit is known, whatever the disk does to the write. *)
Lemma switch_run h flt name on config σ rcvar path :
  _get_rcvar h name = Ok (PyStr rcvar) →
  rcvar ≠ "" →
  config_path h config rcvar σ = Some path →
  σ !! path ≠ Some Dir →
  _switch h flt name on config σ =
    let nlines :=
      switch_lines rcvar (yes_no on) (file_lines (content_of σ path)) in
    match flt with
    | NoFault => (Ok true, <[path := File (join nlines)]> σ)
    | OpenFails => (Raise IOError, σ)
    | WriteFails n =>
        (Raise IOError, <[path := File (take_str n (join nlines))]> σ)
    end.
Proof.
  intros Hrc Hne Hpath Hdir. unfold _switch.
  rewrite (get_rcvar_available _ _ _ Hrc), Hrc, (truthy_str _ Hne).
  cbn [negb]. cbv zeta.
  pose proof (config_path_tests h config rcvar σ) as Ht.
  rewrite Hpath in Ht. cbv zeta in Ht. destruct Ht as [-> ->].
  unfold path_exists, read_lines, content_of, write_lines, switch_lines.
  fold (yes_no on).
  destruct (σ !! path) as [[c|]|] eqn:Hl; [| done |].
  - cbn [mbind result_bind bind]. rewrite switch_loop_spec.
    cbn [app orb].
    destruct (existsb (sets rcvar) (file_lines c)); cbn [negb].
    + rewrite List.app_nil_r. by destruct flt.
    + by destruct flt.
  - cbn [file_lines fmap list_fmap existsb app negb]. by destruct flt.
Qed.

(** [_switch] answers [True] only on the path of [switch_run], with no
    fault: the hypotheses of [switch_run] are those of every successful
    run. *)
Lemma switch_true_inv h flt name on config σ σ' :
  _switch h flt name on config σ = (Ok true, σ') →
  ∃ rcvar path,
    _get_rcvar h name = Ok (PyStr rcvar) ∧ rcvar ≠ "" ∧
    config_path h config rcvar σ = Some path ∧ σ !! path ≠ Some Dir ∧
    flt = NoFault.
Proof.
  intros H.
  assert (∃ rcvar, _get_rcvar h name = Ok (PyStr rcvar) ∧ rcvar ≠ "")
    as (rcvar & Hrc & Hne).
  { unfold _switch in H.
    destruct (available h name) as [[]|]; try done.
    destruct (_get_rcvar h name) as [[| |[|c r]]|]; try done. by eexists. }
  exists rcvar.
  destruct (config_path h config rcvar σ) as [path|] eqn:Hp.
  - exists path. destruct (decide (σ !! path = Some Dir)) as [Hd|Hd].
    + exfalso. unfold _switch in H.
      rewrite (get_rcvar_available _ _ _ Hrc), Hrc, (truthy_str _ Hne) in H.
      cbn [negb] in H. cbv zeta in H.
      pose proof (config_path_tests h config rcvar σ) as Ht.
      rewrite Hp in Ht. cbv zeta in Ht. destruct Ht as [Ht1 Ht2].
      rewrite Ht1, Ht2 in H. unfold path_exists, read_lines in H.
      by rewrite Hd in H.
    + repeat split; try done.
      rewrite (switch_run _ flt _ on _ _ _ _ Hrc Hne Hp Hd) in H.
      by destruct flt.
  - exfalso. unfold _switch in H.
    rewrite (get_rcvar_available _ _ _ Hrc), Hrc, (truthy_str _ Hne) in H.
    cbn [negb] in H. cbv zeta in H.
    pose proof (config_path_tests h config rcvar σ) as Ht.
    rewrite Hp in Ht. cbv zeta in Ht. by rewrite Ht in H.
Qed.

End Switch.

(** ** What a rewritten line keeps *)

Section Frame.

Implicit Types (rcvar val line : string) (lines : list string).

Lemma drop_str_all s : drop_str (String.length s) s = "".
Proof. rewrite <- (str_app_nil_r s) at 2. apply drop_str_app. Qed.

(** A rewritten line keeps what follows the first token of the old one;
    nothing else of the old line is kept when it starts with no white
    space. *)
Lemma rewrite_line_sets rcvar val line :
  sets rcvar line = true →
  ∃ p, rewrite_line rcvar val line
       = assign rcvar val (p +:+ after_first_token line) ∧
       (lstrip line = line → p = "").
Proof.
  intros Hs. unfold rewrite_line. rewrite Hs.
  exists (drop_str (String.length (first_token line))
                   (leading_ws line +:+ first_token line)).
  split.
  - f_equal. rewrite (line_decomp line) at 2.
    rewrite <- str_app_assoc. apply drop_str_app_le.
    rewrite str_length_app. lia.
  - intros [->|Hlw]%leading_ws_no_ws.
    + done.
    + rewrite Hlw, str_app_nil_l. apply drop_str_all.
Qed.



End Frame.

Section Duplicates.

Implicit Types (rcvar val line : string) (lines : list string).

Lemma count_sets_pos rcvar lines :
  0 < count_sets rcvar lines → existsb (sets rcvar) lines = true.
Proof.
  intros Hpos. destruct (existsb (sets rcvar) lines) eqn:He; [done|].
  apply existsb_sets_false in He. unfold count_sets in Hpos.
  exfalso. induction He as [|l ls Hl _ IH]; [simpl in Hpos; lia|].
  rewrite filter_cons in Hpos. destruct (decide (sets rcvar l = true)); [congruence|auto].
Qed.

Lemma assign_startswith rcvar val rest :
  startswith (assign rcvar val "") (assign rcvar val rest) = true.
Proof.
  assert (assign rcvar val rest = assign rcvar val "" +:+ rest) as ->.
  { unfold assign. by rewrite !str_app_assoc, str_app_nil_l. }
  apply startswith_app.
Qed.

Lemma rewrite_line_value rcvar val lines :
  Forall (λ l, sets rcvar l = true → startswith (assign rcvar val "") l = true)
         (rewrite_line rcvar val <$> lines).
Proof.
  apply Forall_fmap, Forall_forall. intros line _. simpl.
  unfold rewrite_line. destruct (sets rcvar line) eqn:Hs.
  - intros _. apply assign_startswith.
  - congruence.
Qed.

Lemma content_of_insert (σ : gmap string node) (path c : string) :
  content_of (<[path := File c]> σ) path = c.
Proof. unfold content_of. by rewrite lookup_insert_eq. Qed.

End Duplicates.

(** ** The lines of a file, written and read back *)

Section Lines.

Implicit Types (s t l r : string) (c : ascii) (ls : list string).

Lemma is_nl_eq c : is_nl c = true → c = "010"%char.
Proof. apply Ascii.eqb_eq. Qed.

Lemma is_nl_space c : is_nl c = true → is_space c = true.
Proof. by intros ->%is_nl_eq. Qed.

Lemma lines_ok_file_lines s : lines_ok (file_lines s).
Proof.
  induction s as [|c s IH]; [done|]. simpl.
  destruct (is_nl c) eqn:Hc.
  - simpl. repeat split; try done. by right.
  - destruct (file_lines s) as [|l ls]; simpl in *.
    + rewrite Hc. repeat split; try done. by left.
    + destruct IH as (Hl & Hnl & Hend & Hok). rewrite Hc.
      repeat split; try done. destruct Hend as [->|Hend]; [by left|right].
      by destruct l.
Qed.

Lemma file_lines_closed l r :
  nl_last l = true → ends_nl l = true →
  file_lines (l +:+ r) = l :: file_lines r.
Proof.
  induction l as [|c l IH]; [done|]. intros Hnl Hend.
  rewrite str_app_cons. simpl in *. destruct (is_nl c) eqn:Hc.
  - apply String.eqb_eq in Hnl as ->. by apply is_nl_eq in Hc as ->.
  - destruct l as [|c' l']; [simpl in Hend; congruence|].
    by rewrite IH.
Qed.

Lemma file_lines_single l :
  l ≠ "" → nl_last l = true → file_lines l = [l].
Proof.
  induction l as [|c l IH]; [done|]. intros _ Hnl. simpl in *.
  destruct (is_nl c) eqn:Hc.
  - apply String.eqb_eq in Hnl as ->. by apply is_nl_eq in Hc as ->.
  - destruct l as [|c' l']; [done|]. by rewrite IH.
Qed.

(** Lines of the shape a file yields are read back as they were written. *)
Lemma file_lines_join ls : lines_ok ls → file_lines (join ls) = ls.
Proof.
  induction ls as [|l ls IH]; [done|].
  intros (Hl & Hnl & Hend & Hok). simpl.
  destruct Hend as [->|Hend].
  - simpl. rewrite str_app_nil_r. by apply file_lines_single.
  - rewrite file_lines_closed by done. by rewrite IH.
Qed.

Lemma nl_free_app s t : nl_free (s +:+ t) = nl_free s && nl_free t.
Proof.
  induction s as [|c s IH]; [done|]. rewrite str_app_cons. simpl.
  by rewrite IH, andb_assoc.
Qed.

Lemma nl_free_last s : nl_free s = true → nl_last s = true.
Proof.
  induction s as [|c s IH]; [done|]. simpl.
  destruct (is_nl c); [done|]. simpl. auto.
Qed.

Lemma nl_last_app_free s t :
  nl_free s = true → nl_last t = true → nl_last (s +:+ t) = true.
Proof.
  induction s as [|c s IH]; [done|]. rewrite str_app_cons. simpl.
  destruct (is_nl c); [done|]. simpl. auto.
Qed.

Lemma nl_last_app_inv s t :
  nl_last (s +:+ t) = true → nl_last t = true ∧ (t ≠ "" → nl_free s = true).
Proof.
  induction s as [|c s IH]; [done|]. rewrite str_app_cons. simpl.
  destruct (is_nl c).
  - intros [-> ->]%String.eqb_eq%str_app_eq_nil. done.
  - simpl. auto.
Qed.

Lemma ends_nl_app s t : t ≠ "" → ends_nl (s +:+ t) = ends_nl t.
Proof.
  intros Ht. induction s as [|c s IH]; [done|]. rewrite str_app_cons.
  simpl. destruct (s +:+ t) eqn:E; [|done].
  by apply str_app_eq_nil in E as [_ ?].
Qed.

Lemma ends_nl_has_ws s : ends_nl s = true → ws_free s = false.
Proof.
  induction s as [|c s IH]; [done|]. simpl. destruct s as [|c' s'].
  - intros ->%is_nl_space. done.
  - intros H. rewrite (IH H). apply andb_false_r.
Qed.

Lemma first_token_nonempty s : lstrip s ≠ "" → first_token s ≠ "".
Proof.
  unfold first_token. induction s as [|c s IH]; [done|]. simpl.
  destruct (is_space c) eqn:Hc; [done|]. simpl. by rewrite Hc.
Qed.

End Lines.

Section RewriteShape.

Implicit Types (rcvar val line : string) (lines : list string).

Lemma sets_lstrip rcvar line : sets rcvar line = true → lstrip line ≠ "".
Proof.
  intros [t ->]%startswith_inv.
  rewrite str_app_assoc. change ("=" +:+ t) with (String "="%char t).
  by apply lstrip_app_nonspace.
Qed.

Lemma sets_nl_free rcvar line :
  sets rcvar line = true → nl_last line = true → nl_free rcvar = true.
Proof.
  intros [t ->]%startswith_inv Hnl. rewrite str_app_assoc in Hnl.
  by apply nl_last_app_inv in Hnl as [_ ->].
Qed.

Lemma sets_assign rcvar val rest : sets rcvar (assign rcvar val rest) = true.
Proof.
  unfold sets, assign. rewrite <- str_app_assoc. apply startswith_app.
Qed.

(** A rewritten line has the shape of the line it replaces. *)
Lemma rewrite_line_shape rcvar val line :
  nl_free val = true →
  line ≠ "" → nl_last line = true →
  rewrite_line rcvar val line ≠ "" ∧
  nl_last (rewrite_line rcvar val line) = true ∧
  (ends_nl line = true → ends_nl (rewrite_line rcvar val line) = true).
Proof.
  intros Hval Hne Hnl. unfold rewrite_line.
  destruct (sets rcvar line) eqn:Hs; [|done].
  set (k := String.length (first_token line)).
  pose proof (take_drop_str k line) as Htd.
  assert (nl_last (drop_str k line) = true) as Hrest.
  { rewrite <- Htd in Hnl. by apply nl_last_app_inv in Hnl as [? _]. }
  assert (nl_free (rcvar +:+ "=" +:+ dq +:+ val +:+ dq) = true) as Hpre.
  { rewrite !nl_free_app, (sets_nl_free _ _ Hs Hnl), Hval. done. }
  assert (assign rcvar val (drop_str k line)
          = (rcvar +:+ "=" +:+ dq +:+ val +:+ dq) +:+ drop_str k line) as Hasg.
  { unfold assign. by rewrite !str_app_assoc. }
  split; [|split].
  - intros H. pose proof (sets_assign rcvar val (drop_str k line)) as Hsa.
    rewrite H in Hsa. unfold sets, startswith in Hsa.
    destruct rcvar; simpl in Hsa; done.
  - rewrite Hasg. by apply nl_last_app_free.
  - intros Hend. rewrite Hasg.
    assert (drop_str k line ≠ "") as Hrne.
    { intros Hr. rewrite Hr, str_app_nil_r in Htd.
      destruct (rewrite_line_sets rcvar val line Hs) as (p & Hp & _).
      unfold rewrite_line in Hp. rewrite Hs in Hp. fold k in Hp.
      unfold assign in Hp. repeat apply (inj (String.app _)) in Hp.
      rewrite Hr in Hp. symmetry in Hp. apply str_app_eq_nil in Hp as [_ Haft].
      pose proof (line_decomp line) as Hd. rewrite Haft, str_app_nil_r in Hd.
      rewrite Hd, ends_nl_app in Hend by by apply first_token_nonempty, sets_lstrip with rcvar.
      apply ends_nl_has_ws in Hend.
      unfold first_token in Hend. by rewrite take_word_ws_free in Hend. }
    rewrite ends_nl_app by done.
    by rewrite <- Htd, ends_nl_app in Hend.
Qed.

Lemma lines_ok_rewrite rcvar val lines :
  nl_free val = true →
  lines_ok lines → lines_ok (rewrite_line rcvar val <$> lines).
Proof.
  intros Hval. induction lines as [|l ls IH]; [done|].
  intros (Hl & Hnl & Hend & Hok). rewrite fmap_cons.
  destruct (rewrite_line_shape rcvar val l Hval Hl Hnl) as (H1 & H2 & H3).
  cbn [lines_ok]. repeat split; try done; [|by apply IH].
  destruct Hend as [->|Hend]; [by left|right; auto].
Qed.

Lemma nl_free_yes_no on : nl_free (yes_no on) = true.
Proof. by destruct on. Qed.

Lemma count_sets_rewrite rcvar val lines :
  count_sets rcvar (rewrite_line rcvar val <$> lines) = count_sets rcvar lines.
Proof.
  unfold count_sets. induction lines as [|l ls IH]; [done|].
  rewrite fmap_cons, !filter_cons.
  assert (sets rcvar (rewrite_line rcvar val l) = sets rcvar l) as ->.
  { unfold rewrite_line. destruct (sets rcvar l) eqn:Hs; [|done].
    apply sets_assign. }
  destruct (decide (sets rcvar l = true)); simpl; by rewrite IH.
Qed.

End RewriteShape.

(** ** Running [_switch] twice *)

Section Twice.

Implicit Types (h : host) (σ : gmap string node).
Implicit Types (rcvar val line rest s : string) (lines : list string).

Lemma file_lines_all_closed s :
  s = "" ∨ ends_nl s = true → Forall (λ l, ends_nl l = true) (file_lines s).
Proof.
  induction s as [|c s IH]; [constructor|]. intros [?|Hend]; [done|].
  simpl. destruct (is_nl c) eqn:Hc.
  - constructor; [done|]. apply IH. destruct s; [by left|by right].
  - destruct s as [|c' s']; [simpl in Hend; congruence|].
    specialize (IH (or_intror Hend)).
    pose proof (lines_ok_file_lines (String c' s')) as Hok.
    destruct (file_lines (String c' s')) as [|l ls] eqn:E.
    { apply (f_equal join) in E. rewrite join_file_lines in E. done. }
    destruct Hok as (Hl & _). inversion IH as [|?? Hcl Hrest]; subst.
    constructor; [|done]. by destruct l.
Qed.

Lemma lines_ok_snoc lines line :
  lines_ok lines → Forall (λ l, ends_nl l = true) lines →
  line ≠ "" → nl_last line = true →
  lines_ok (lines ++ [line]).
Proof.
  intros Hok Hcl Hne Hnl. induction Hcl as [|l ls Hl _ IH].
  - simpl. repeat split; try done. by left.
  - destruct Hok as (? & ? & _ & Hok). simpl. repeat split; try done.
    + by right.
    + by apply IH.
Qed.

Lemma assign_shape rcvar val :
  nl_free rcvar = true → nl_free val = true →
  assign rcvar val nl ≠ "" ∧ nl_last (assign rcvar val nl) = true.
Proof.
  intros Hr Hv. split.
  - unfold assign. destruct rcvar; done.
  - unfold assign. repeat (apply nl_last_app_free; [done|]). done.
Qed.

(** The list [_switch] writes has the shape of a file's lines when a line
    was edited, or when the old text was empty or ended in a line feed. *)
Lemma lines_ok_switch_lines rcvar val s :
  nl_free val = true →
  existsb (sets rcvar) (file_lines s) = true
  ∨ (nl_free rcvar = true ∧ (s = "" ∨ ends_nl s = true)) →
  lines_ok (switch_lines rcvar val (file_lines s)).
Proof.
  intros Hval Hcase. unfold switch_lines.
  destruct (existsb (sets rcvar) (file_lines s)) eqn:He.
  - rewrite List.app_nil_r. by apply lines_ok_rewrite, lines_ok_file_lines.
  - destruct Hcase as [?|[Hr Hs]]; [done|].
    rewrite rewrite_line_id by by apply existsb_sets_false.
    destruct (assign_shape rcvar val Hr Hval).
    apply lines_ok_snoc; try done.
    + apply lines_ok_file_lines.
    + by apply file_lines_all_closed.
Qed.

Lemma ws_free_app s t : ws_free (s +:+ t) = ws_free s && ws_free t.
Proof.
  induction s as [|c s IH]; [done|]. rewrite str_app_cons. simpl.
  by rewrite IH, andb_assoc.
Qed.

Lemma ws_free_nl_free s : ws_free s = true → nl_free s = true.
Proof.
  induction s as [|c s IH]; [done|]. simpl.
  intros [Hc Hs]%andb_true_iff. rewrite (IH Hs), andb_true_r.
  destruct (is_nl c) eqn:E; [|done]. by rewrite (is_nl_space _ E) in Hc.
Qed.

Lemma drop_word_idem s : drop_word (drop_word s) = drop_word s.
Proof.
  induction s as [|c s IH]; [done|]. simpl.
  destruct (is_space c) eqn:Hc; [|done]. simpl. by rewrite Hc.
Qed.

Lemma take_word_app s rest :
  ws_free s = true → drop_word rest = rest → take_word (s +:+ rest) = s.
Proof.
  intros Hs Hrest. induction s as [|c s IH].
  - rewrite str_app_nil_l. destruct rest as [|c r]; [done|]. simpl in *.
    destruct (is_space c); [done|].
    apply (f_equal String.length) in Hrest. simpl in Hrest.
    pose proof (word_decomp r) as Hd. apply (f_equal String.length) in Hd.
    rewrite str_length_app in Hd. lia.
  - rewrite str_app_cons. simpl in *.
    apply andb_true_iff in Hs as [Hc Hs].
    destruct (is_space c); [done|]. by rewrite IH.
Qed.

Lemma lstrip_ws_free s rest :
  s ≠ "" → ws_free s = true → lstrip (s +:+ rest) = s +:+ rest.
Proof.
  destruct s as [|c s]; [done|]. intros _ [Hc _]%andb_true_iff.
  rewrite str_app_cons. simpl. by destruct (is_space c).
Qed.

(** An assignment line that [_switch] wrote is rewritten to itself. *)
Lemma rewrite_assign rcvar val rest :
  ws_free rcvar = true → ws_free val = true → drop_word rest = rest →
  rewrite_line rcvar val (assign rcvar val rest) = assign rcvar val rest.
Proof.
  intros Hr Hv Hrest. unfold rewrite_line. rewrite sets_assign.
  set (w := rcvar +:+ "=" +:+ dq +:+ val +:+ dq).
  assert (assign rcvar val rest = w +:+ rest) as Hasg.
  { unfold assign, w. by rewrite !str_app_assoc. }
  assert (ws_free w = true) as Hw.
  { unfold w. rewrite !ws_free_app, Hr, Hv. done. }
  assert (w ≠ "") as Hne.
  { unfold w. intros [_ H]%str_app_eq_nil. done. }
  rewrite Hasg at 1 2. unfold first_token.
  rewrite lstrip_ws_free, take_word_app by done.
  by rewrite drop_str_app.
Qed.

Lemma rewrite_line_idem rcvar val line :
  ws_free rcvar = true → ws_free val = true →
  rewrite_line rcvar val (rewrite_line rcvar val line)
  = rewrite_line rcvar val line.
Proof.
  intros Hr Hv. unfold rewrite_line at 2 3.
  destruct (sets rcvar line) eqn:Hs.
  - apply rewrite_assign; try done.
    apply startswith_inv in Hs as [t ->].
    assert (lstrip ((rcvar +:+ "=") +:+ t) = (rcvar +:+ "=") +:+ t) as Hl.
    { apply lstrip_ws_free; [by intros [_ ?]%str_app_eq_nil|].
      by rewrite ws_free_app, Hr. }
    pose proof (line_decomp ((rcvar +:+ "=") +:+ t)) as Hd.
    apply leading_ws_no_ws in Hl as Hlw.
    destruct Hlw as [[[_ ?]%str_app_eq_nil _]%str_app_eq_nil|Hlw]; [done|].
    rewrite Hlw, str_app_nil_l in Hd.
    set (line := (rcvar +:+ "=") +:+ t) in *.
    assert (drop_str (String.length (first_token line)) line
            = after_first_token line) as ->.
    { etrans; [|apply (drop_str_app (first_token line) (after_first_token line))].
      by rewrite <- Hd. }
    unfold after_first_token. apply drop_word_idem.
  - unfold rewrite_line. by rewrite Hs.
Qed.

Lemma existsb_sets_switch_lines rcvar val lines :
  existsb (sets rcvar) (switch_lines rcvar val lines) = true.
Proof.
  unfold switch_lines. rewrite existsb_app.
  destruct (existsb (sets rcvar) lines) eqn:He.
  - apply orb_true_iff. left.
    apply existsb_exists in He as (l & Hin & Hs).
    apply existsb_exists. exists (rewrite_line rcvar val l). split.
    + apply in_map_iff. eauto.
    + unfold rewrite_line. rewrite Hs. apply sets_assign.
  - apply orb_true_iff. right. simpl. by rewrite sets_assign.
Qed.

(** Given back the list it wrote, [_switch] writes it again. *)
Lemma switch_lines_idem rcvar val lines :
  ws_free rcvar = true → ws_free val = true →
  switch_lines rcvar val (switch_lines rcvar val lines)
  = switch_lines rcvar val lines.
Proof.
  intros Hr Hv. unfold switch_lines at 1.
  rewrite existsb_sets_switch_lines, List.app_nil_r.
  unfold switch_lines. rewrite fmap_app. f_equal.
  - rewrite <- list_fmap_compose. apply list_fmap_ext.
    intros i l _. simpl. by apply rewrite_line_idem.
  - destruct (existsb _ _); [done|].
    simpl. f_equal. by apply rewrite_assign.
Qed.

Lemma config_path_insert h config rcvar σ path c :
  config_path h config rcvar σ = Some path →
  σ !! path ≠ Some Dir →
  config_path h config rcvar (<[path := File c]> σ) = Some path.
Proof.
  unfold config_path. cbv zeta. intros Hp Hd.
  destruct (String.eqb _ ""); [|done].
  unfold path_isdir in *.
  destruct (σ !! "/etc/rc.conf.d") as [[|]|] eqn:E; try done.
  assert (path ≠ "/etc/rc.conf.d") by (intros ->; congruence).
  by rewrite lookup_insert_ne, E.
Qed.

Lemma ws_free_yes_no on : ws_free (yes_no on) = true.
Proof. by destruct on. Qed.

End Twice.

(** ** The rcvar of a service *)

Section Rcvar.

Implicit Types (h : host) (s a b line : string) (lines : list string).

Lemma splitlines_nl_free_aux s :
  Forall (λ l, nl_free l = true) (splitlines s) ∧
  ∀ c, Forall (λ l, nl_free l = true) (splitlines (String c s)).
Proof.
  induction s as [|c s [IH1 IH2]].
  - split; [constructor|]. intros c. simpl.
    destruct (is_nl c) eqn:Hc; [by repeat constructor|].
    destruct (is_cr c); [by repeat constructor|].
    repeat constructor. simpl. by rewrite Hc.
  - split; [apply IH2|]. intros c2.
    change (splitlines (String c2 (String c s))) with
      (if is_nl c2 then "" :: splitlines (String c s)
       else if is_cr c2 then
         (if is_nl c then "" :: splitlines s else "" :: splitlines (String c s))
       else match splitlines (String c s) with
            | [] => [String c2 ""]
            | l :: ls => String c2 l :: ls
            end).
    destruct (is_nl c2) eqn:Hc2; [by constructor|].
    destruct (is_cr c2).
    + destruct (is_nl c); by constructor.
    + specialize (IH2 c). destruct (splitlines (String c s)) as [|l ls].
      * repeat constructor. simpl. by rewrite Hc2.
      * inversion IH2; subst. constructor; [|done]. simpl. by rewrite Hc2.
Qed.

Lemma splitlines_nl_free s : Forall (λ l, nl_free l = true) (splitlines s).
Proof. apply splitlines_nl_free_aux. Qed.

Lemma split_sep_once sep s a b :
  split_sep sep s 1 = [a; b] → s = a +:+ String sep b.
Proof.
  revert a. induction s as [|c s IH]; intros a; [done|]. simpl.
  destruct (Ascii.eqb c sep) eqn:Hc.
  - apply Ascii.eqb_eq in Hc as ->. destruct s; by intros [= <- <-].
  - destruct (split_sep sep s 1) as [|l ls]; [done|].
    intros [= <- ->]. rewrite str_app_cons. f_equal. by apply IH.
Qed.

Lemma rcvar_scan_nl_free lines rcvar :
  Forall (λ l, nl_free l = true) lines →
  rcvar_scan lines = Ok (PyStr rcvar) → nl_free rcvar = true.
Proof.
  induction 1 as [|line lines Hl _ IH]; [done|]. simpl.
  destruct (contains _ line); simpl; [|done].
  destruct (split_sep "="%char line 1) as [|a [|b [|??]]] eqn:E; try done.
  intros [= <-]. apply split_sep_once in E. rewrite E, nl_free_app in Hl.
  by apply andb_true_iff in Hl as [? _].
Qed.

(** The rcvar of a service is read off one line of output: it has no line
    feed in it. *)
Lemma get_rcvar_nl_free h name rcvar :
  _get_rcvar h name = Ok (PyStr rcvar) → nl_free rcvar = true.
Proof.
  unfold _get_rcvar. destruct (available h name) as [[]|]; [|done..].
  cbn. destruct (_cmd h); [|done]. cbn.
  apply rcvar_scan_nl_free, splitlines_nl_free.
Qed.

End Rcvar.

(** ** Unknown services and the missing executable *)

Section Availability.

Implicit Types (h : host) (σ : gmap string node) (name : string).

Lemma available_unknown h name all :
  get_all h = Ok all → name ∉ all → available h name = Ok false.
Proof.
  intros Hall Hnot. unfold available. rewrite Hall. cbn.
  by rewrite bool_decide_eq_false_2.
Qed.

Lemma cmd_missing h : which h "service" = None → _cmd h = Raise CommandNotFoundError.
Proof. intros H. unfold _cmd. by rewrite H. Qed.

Lemma get_all_missing h :
  which h "service" = None → get_all h = Raise CommandNotFoundError.
Proof. intros H. unfold get_all. by rewrite (cmd_missing _ H). Qed.

Lemma available_missing h name :
  which h "service" = None → available h name = Raise CommandNotFoundError.
Proof. intros H. unfold available. by rewrite (get_all_missing _ H). Qed.

End Availability.

(** ** The listings *)

Section Listings.

Implicit Types (h : host) (σ : gmap string node) (l : list string).

Lemma sorted_sorted l : StronglySorted String.le (sorted l).
Proof. apply StronglySorted_merge_sort; apply _. Qed.

Lemma elem_of_sorted l s : s ∈ sorted l ↔ s ∈ l.
Proof. unfold sorted. by rewrite merge_sort_Permutation. Qed.

Lemma NoDup_sorted l : NoDup l → NoDup (sorted l).
Proof. unfold sorted. by rewrite merge_sort_Permutation. Qed.

Lemma get_all_sorted h all : get_all h = Ok all → StronglySorted String.le all.
Proof.
  unfold get_all. destruct (_cmd h); [|done]. cbn.
  intros [= <-]. apply sorted_sorted.
Qed.

Lemma get_enabled_sorted h σ en :
  get_enabled h σ = Ok en → StronglySorted String.le en.
Proof.
  unfold get_enabled. destruct (_cmd h); [|done]. cbn.
  destruct (get_all h); [|done]. cbn.
  destruct (get_enabled_loop _ _ _ _); [|done]. cbn.
  intros [= <-]. apply sorted_sorted.
Qed.

End Listings.

(** * The specification, claim by claim *)

(** ** Unknown units, error results and listings *)

(** C2. For a service name that [get_all] does not list, [enable] and
    [disable] answer [False], the unknown-unit outcome, and the file system
    is the one they were given: no write was made, whatever the disk would
    have done to one. *)
Theorem switch_unknown_unit (h : host) (flt : fault) (name : string)
    (config : option string) (σ : gmap string node) (all : list string) :
  get_all h = Ok all →
  name ∉ all →
  enable h flt name config σ = (Ok false, σ) ∧
  disable h flt name config σ = (Ok false, σ).
Proof.
  intros Hall Hnot. unfold enable, disable, _switch.
  by rewrite (available_unknown _ _ _ Hall Hnot).
Qed.

Lemma switch_unknown_unit_witness :
  enable h0 NoFault "cron" None fs_open = (Ok false, fs_open) ∧
  disable h0 NoFault "cron" None fs_open = (Ok false, fs_open).
Proof.
  apply (switch_unknown_unit h0 NoFault "cron" None fs_open ["ntpd"; "sshd"]).
  - reflexivity.
  - apply (bool_decide_unpack _). vm_compute. exact I.
Defined.

(** C3. A result of [cron.present] or [cron.absent] that reports an error
    ([result] is [False]) reports no change: its [changes] dictionary is
    empty, whatever the arguments and whatever the cron execution module
    answered. *)
Theorem error_result_has_no_changes {W : Type} (set_job rm_job : job_call W)
    (name user minute hour daymonth month dayweek : string) (w w' : W) (r : ret) :
  present set_job name user minute hour daymonth month dayweek w = (Ok r, w') ∨
  absent rm_job name user minute hour daymonth month dayweek w = (Ok r, w') →
  ret_result r = false →
  ret_changes r = ∅.
Proof.
  intros [H|H] Hres.
  - unfold present in H.
    destruct (set_job _ _ _ _ _ _ _ _) as [[data|e] w'']; [|done].
    injection H as <- _. unfold present_ret in *.
    repeat (destruct (String.eqb data _); [done|]). done.
  - unfold absent in H.
    destruct (rm_job _ _ _ _ _ _ _ _) as [[data|e] w'']; [|done].
    injection H as <- _. unfold absent_ret in *.
    repeat (destruct (String.eqb data _); [done|]). done.
Qed.

Lemma error_result_has_no_changes_witness :
  ret_changes (present_ret "/bin/true" "root" "crontab: temp file busy") = ∅.
Proof.
  apply (error_result_has_no_changes failing_job failing_job
           "/bin/true" "root" "*/5" "*" "*" "*" "*" tt tt).
  - left. reflexivity.
  - reflexivity.
Defined.

(** C9. [disabled(name)] is the negation of [enabled(name)] (and raises when
    [enabled] does); a service that [get_all] does not list is reported as
    not enabled, hence as disabled. *)
Theorem disabled_negates_enabled (h : host) (name : string) :
  disabled h name = negb <$> enabled h name ∧
  ∀ all, get_all h = Ok all → name ∉ all →
         enabled h name = Ok false ∧ disabled h name = Ok true.
Proof.
  split.
  - unfold disabled. by destruct (enabled h name).
  - intros all Hall Hnot. unfold disabled, enabled.
    by rewrite (available_unknown _ _ _ Hall Hnot).
Qed.

Lemma disabled_negates_enabled_witness :
  (disabled h0 "sshd" = Ok false ∧ enabled h0 "sshd" = Ok true) ∧
  (enabled h0 "cron" = Ok false ∧ disabled h0 "cron" = Ok true).
Proof.
  destruct (disabled_negates_enabled h0 "cron") as [_ Hunknown].
  split.
  - pose proof (proj1 (disabled_negates_enabled h0 "sshd")) as H.
    split; [by rewrite H|reflexivity].
  - apply (Hunknown ["ntpd"; "sshd"]).
    + reflexivity.
    + apply (bool_decide_unpack _). vm_compute. exact I.
Defined.

(** C10. [get_all] returns a sorted list, and so does [get_enabled];
    [get_disabled] returns the sorted difference of the set of [get_all] and
    the set of [get_enabled]: a name is listed as disabled exactly when it is
    available and not listed as enabled, so every available service is in
    exactly one of the two listings; [get_disabled] is sorted and has no name
    twice. *)
Theorem get_disabled_is_sorted_difference (h : host) (σ : gmap string node)
    (all : list string) :
  get_all h = Ok all →
  StronglySorted String.le all ∧
  ∀ en, get_enabled h σ = Ok en →
    StronglySorted String.le en ∧
    ∃ dis,
      get_disabled h σ = Ok dis ∧
      dis = sorted (elements ((list_to_set all : gset string) ∖ list_to_set en)) ∧
      (∀ s, s ∈ dis ↔ s ∈ all ∧ (s ∉ en)) ∧
      (∀ s, s ∈ all → (s ∈ en ∧ (s ∉ dis)) ∨ ((s ∉ en) ∧ s ∈ dis)) ∧
      NoDup dis ∧
      StronglySorted String.le dis.
Proof.
  intros Hall. split; [by eapply get_all_sorted|].
  intros en Hen. split; [by eapply get_enabled_sorted|].
  eexists. split.
  { unfold get_disabled. rewrite Hen, Hall. reflexivity. }
  assert (∀ s, s ∈ sorted (elements ((list_to_set all : gset string) ∖ list_to_set en))
               ↔ s ∈ all ∧ (s ∉ en)) as Hmem.
  { intros s. rewrite elem_of_sorted, elem_of_elements. set_solver. }
  split; [done|]. split; [done|]. split.
  { intros s Hs. destruct (decide (s ∈ en)) as [Hin|Hin].
    - left. split; [done|]. rewrite Hmem. tauto.
    - right. split; [done|]. by rewrite Hmem. }
  split; [apply NoDup_sorted, NoDup_elements|apply sorted_sorted].
Qed.

Lemma get_disabled_is_sorted_difference_witness :
  get_all h0 = Ok ["ntpd"; "sshd"] ∧
  get_enabled h0 fs_open = Ok ["sshd"] ∧
  get_disabled h0 fs_open = Ok ["ntpd"].
Proof.
  destruct (get_disabled_is_sorted_difference h0 fs_open ["ntpd"; "sshd"] eq_refl)
    as [_ H].
  destruct (H ["sshd"] eq_refl) as (_ & dis & Hdis & -> & _).
  split; [reflexivity|]. split; [reflexivity|]. exact Hdis.
Defined.

(** C7, as the code has it. The claim fails for the missing executable: on a
    host where [salt.utils.which('service')] finds nothing, every public
    operation of the service module raises [CommandNotFoundError] to its
    caller instead of handing back an error value ([enable] and [disable]
    before any write). The failures that are handed back as values are the
    commit errors of the cron execution module: [cron.present] and
    [cron.absent] then answer with [result] [False], which they do exactly
    when the answer is not one of their status words. *)
Theorem missing_service_command_raises (h : host) (flt : fault) (name : string)
    (config : option string) (σ : gmap string node) (user data : string) :
  which h "service" = None →
  (get_all h = Raise CommandNotFoundError ∧
   available h name = Raise CommandNotFoundError ∧
   enabled h name = Raise CommandNotFoundError ∧
   disabled h name = Raise CommandNotFoundError ∧
   get_enabled h σ = Raise CommandNotFoundError ∧
   get_disabled h σ = Raise CommandNotFoundError ∧
   enable h flt name config σ = (Raise CommandNotFoundError, σ) ∧
   disable h flt name config σ = (Raise CommandNotFoundError, σ) ∧
   start h name = Raise CommandNotFoundError ∧
   stop h name = Raise CommandNotFoundError ∧
   restart h name = Raise CommandNotFoundError ∧
   reload h name = Raise CommandNotFoundError ∧
   status h name = Raise CommandNotFoundError) ∧
  ret_result (present_ret name user data)
    = bool_decide (data ∈ ["present"; "new"; "updated"]) ∧
  ret_result (absent_ret name user data)
    = bool_decide (data ∈ ["absent"; "removed"]).
Proof.
  intros Hw.
  pose proof (cmd_missing _ Hw) as Hcmd.
  pose proof (get_all_missing _ Hw) as Hall.
  pose proof (available_missing h name Hw) as Hav.
  assert (enabled h name = Raise CommandNotFoundError) as Hen
    by (unfold enabled; by rewrite Hav).
  assert (get_enabled h σ = Raise CommandNotFoundError) as Hge
    by (unfold get_enabled; by rewrite Hcmd).
  split; [|split].
  - repeat split; try done.
    + unfold disabled. by rewrite Hen.
    + unfold get_disabled. by rewrite Hge.
    + unfold enable, _switch. by rewrite Hav.
    + unfold disable, _switch. by rewrite Hav.
    + unfold start, run_action. by rewrite Hcmd.
    + unfold stop, run_action. by rewrite Hcmd.
    + unfold restart, run_action. by rewrite Hcmd.
    + unfold reload, run_action. by rewrite Hcmd.
    + unfold status, run_action. by rewrite Hcmd.
  - unfold present_ret.
    destruct (String.eqb_spec data "present") as [->|?]; [done|].
    destruct (String.eqb_spec data "new") as [->|?]; [done|].
    destruct (String.eqb_spec data "updated") as [->|?]; [done|].
    symmetry. apply bool_decide_eq_false_2.
    rewrite !elem_of_cons, elem_of_nil. intros [?|[?|[?|[]]]]; congruence.
  - unfold absent_ret.
    destruct (String.eqb_spec data "absent") as [->|?]; [done|].
    destruct (String.eqb_spec data "removed") as [->|?]; [done|].
    symmetry. apply bool_decide_eq_false_2.
    rewrite !elem_of_cons, elem_of_nil. intros [?|[?|[]]]; congruence.
Qed.

Lemma missing_service_command_raises_witness :
  get_all h_down = Raise CommandNotFoundError ∧
  enabled h_down "sshd" = Raise CommandNotFoundError ∧
  enable h_down NoFault "sshd" None fs_open = (Raise CommandNotFoundError, fs_open) ∧
  status h_down "sshd" = Raise CommandNotFoundError.
Proof.
  destruct (missing_service_command_raises h_down NoFault "sshd" None fs_open
              "root" "new" eq_refl) as [H _].
  repeat split; apply H.
Defined.

(** C7, the claim as stated, fails here: without the [service] executable
    [get_all] and [enable] raise instead of returning. *)
Lemma uncaught_command_not_found :
  raises (get_all h_down) = true ∧
  raises (enable h_down NoFault "sshd" None fs_open).1 = true ∧
  raises (enabled h_down "sshd") = true.
Proof. repeat split; reflexivity. Qed.

(** ** The rewrite of the boot configuration *)

(** C4, as the code has it. The file is rewritten in place: it is opened with
    mode ['w'], which empties it, and the new lines are written from its
    first byte on. With no failure it holds exactly the new text; when the
    open is refused it is untouched; when the write fails after [n] bytes it
    holds the first [n] bytes of the new text and [IOError] reaches the
    caller. *)
Theorem switch_writes_in_place (h : host) (flt : fault) (name : string)
    (on : bool) (config : option string) (σ : gmap string node)
    (rcvar path : string) :
  _get_rcvar h name = Ok (PyStr rcvar) →
  rcvar ≠ "" →
  config_path h config rcvar σ = Some path →
  σ !! path ≠ Some Dir →
  let new :=
    join (switch_lines rcvar (yes_no on) (file_lines (content_of σ path))) in
  let out := _switch h flt name on config σ in
  match flt with
  | NoFault => out.1 = Ok true ∧ content_of out.2 path = new
  | OpenFails => out.1 = Raise IOError ∧ out.2 = σ
  | WriteFails n =>
      out.1 = Raise IOError ∧ content_of out.2 path = take_str n new
  end.
Proof.
  intros Hrc Hne Hpath Hdir new out. subst out.
  rewrite (switch_run _ _ _ _ _ _ _ _ Hrc Hne Hpath Hdir).
  destruct flt; cbn [fst snd]; (split; [done|]); try done;
    unfold content_of; by rewrite lookup_insert_eq.
Qed.

Lemma switch_writes_in_place_witness :
  (enable h0 (WriteFails 12) "sshd" None fs_dup).1 = Raise IOError ∧
  content_of (enable h0 (WriteFails 12) "sshd" None fs_dup).2 rc_conf
  = "# boot" +:+ nl +:+ "sshd_".
Proof.
  refine (switch_writes_in_place h0 (WriteFails 12) "sshd" true None fs_dup
            "sshd_enable" rc_conf _ _ _ _).
  - reflexivity.
  - done.
  - reflexivity.
  - done.
Defined.

(** C4, the claim as stated, fails here: a write that fails before its first
    byte leaves [/etc/rc.conf], which held [foo=bar], empty. *)
Lemma write_failure_loses_content :
  (enable h0 (WriteFails 0) "sshd" None fs_open).1 = Raise IOError ∧
  content_of fs_open rc_conf = "foo=bar" ∧
  content_of (enable h0 (WriteFails 0) "sshd" None fs_open).2 rc_conf = "".
Proof. repeat split; reflexivity. Qed.

(** C5, as the code has it. The rewrite deletes nothing. When lines of the
    file set the rcvar (one, or two and more), a successful [enable] or
    [disable] rewrites each of them where it stands: the rewritten file, read
    back, has as many lines as before and as many lines for the rcvar as
    before, each of these starting with [rcvar="YES"] (or [rcvar="NO"]), and
    no line is added. *)
Theorem switch_rewrites_every_match (h : host) (name : string) (on : bool)
    (config : option string) (σ : gmap string node) (rcvar path : string) :
  _get_rcvar h name = Ok (PyStr rcvar) →
  rcvar ≠ "" →
  config_path h config rcvar σ = Some path →
  σ !! path ≠ Some Dir →
  0 < count_sets rcvar (file_lines (content_of σ path)) →
  let lines := file_lines (content_of σ path) in
  let out := _switch h NoFault name on config σ in
  let lines' := file_lines (content_of out.2 path) in
  out.1 = Ok true ∧
  lines' = rewrite_line rcvar (yes_no on) <$> lines ∧
  length lines' = length lines ∧
  count_sets rcvar lines' = count_sets rcvar lines ∧
  Forall (λ l, sets rcvar l = true →
               startswith (assign rcvar (yes_no on) "") l = true) lines'.
Proof.
  intros Hrc Hne Hpath Hdir Hpos lines out lines'. subst out lines'.
  rewrite (switch_run _ _ _ _ _ _ _ _ Hrc Hne Hpath Hdir). cbn [fst snd].
  rewrite content_of_insert. subst lines.
  unfold switch_lines. rewrite (count_sets_pos _ _ Hpos), List.app_nil_r.
  rewrite file_lines_join
    by (apply lines_ok_rewrite; [apply nl_free_yes_no|apply lines_ok_file_lines]).
  split; [done|]. split; [done|].
  split; [by rewrite length_fmap|].
  split; [apply count_sets_rewrite|apply rewrite_line_value].
Qed.

Lemma switch_rewrites_every_match_witness :
  (disable h0 NoFault "sshd" None fs_dup).1 = Ok true ∧
  file_lines (content_of (disable h0 NoFault "sshd" None fs_dup).2 rc_conf)
  = ["# boot" +:+ nl; assign "sshd_enable" "NO" nl; "hostname=h" +:+ nl;
     assign "sshd_enable" "NO" (" # again" +:+ nl)].
Proof.
  destruct (switch_rewrites_every_match h0 "sshd" false None fs_dup
              "sshd_enable" rc_conf)
    as (Hres & Hlines & _); [reflexivity | done | reflexivity | done | |].
  - vm_compute. lia.
  - split; [exact Hres|]. unfold disable. rewrite Hlines. reflexivity.
Defined.

(** C5, the claim as stated, fails here: [rc.conf] has two lines for
    [sshd_enable], and after a successful [enable] it still has two. *)
Lemma duplicates_survive :
  (enable h0 NoFault "sshd" None fs_dup).1 = Ok true ∧
  count_sets "sshd_enable" (file_lines (content_of fs_dup rc_conf)) = 2 ∧
  count_sets "sshd_enable"
    (file_lines (content_of (enable h0 NoFault "sshd" None fs_dup).2 rc_conf)) = 2.
Proof. repeat split; vm_compute; reflexivity. Qed.

(** C6 at an [rc.conf] whose last line has no line feed. No line of the
    file sets [sshd_enable], and [enable] answers [True]; but the file read
    back has the one line it had, now with the assignment glued to its end,
    and no line [sshd_enable="YES"] of its own: the number of lines is the
    same and no line sets the rcvar. *)
Lemma enable_appends_no_line :
  let σ1 := (enable h0 NoFault "sshd" None fs_open).2 in
  (enable h0 NoFault "sshd" None fs_open).1 = Ok true ∧
  existsb (sets "sshd_enable") (file_lines (content_of fs_open rc_conf)) = false ∧
  file_lines (content_of fs_open rc_conf) = ["foo=bar"] ∧
  file_lines (content_of σ1 rc_conf)
  = ["foo=bar" +:+ assign "sshd_enable" "YES" nl] ∧
  existsb (sets "sshd_enable") (file_lines (content_of σ1 rc_conf)) = false.
Proof. repeat split; vm_compute; reflexivity. Qed.

(** X17, beside C6. What the append does. When no line of the file sets the
    rcvar, a successful [enable] or [disable] hands [writelines] the old
    lines and one element more, [rcvar="YES"] (or [rcvar="NO"]) with its line
    feed, so that the file holds the old text followed by that assignment; a
    file that is not there yet is created with the assignment alone. When
    the old text was empty or ended in a line feed, the file read back has
    the old lines and then the new one. *)
Theorem switch_appends_when_missing (h : host) (name : string) (on : bool)
    (config : option string) (σ : gmap string node) (rcvar path : string) :
  _get_rcvar h name = Ok (PyStr rcvar) →
  rcvar ≠ "" →
  config_path h config rcvar σ = Some path →
  σ !! path ≠ Some Dir →
  Forall (λ line, sets rcvar line = false) (file_lines (content_of σ path)) →
  let old := content_of σ path in
  let line := assign rcvar (yes_no on) nl in
  switch_lines rcvar (yes_no on) (file_lines old) = file_lines old ++ [line] ∧
  _switch h NoFault name on config σ
    = (Ok true, <[path := File (old +:+ line)]> σ) ∧
  (σ !! path = None →
   _switch h NoFault name on config σ = (Ok true, <[path := File line]> σ)) ∧
  (old = "" ∨ ends_nl old = true →
   file_lines (old +:+ line) = file_lines old ++ [line]).
Proof.
  intros Hrc Hne Hpath Hdir Hno old line.
  subst old line. set (old := content_of σ path) in *.
  set (line := assign rcvar (yes_no on) nl).
  assert (switch_lines rcvar (yes_no on) (file_lines old)
          = file_lines old ++ [line]) as Hl.
  { unfold switch_lines.
    rewrite (rewrite_line_id _ _ _ Hno).
    by rewrite (proj2 (existsb_sets_false _ _) Hno). }
  assert (join (file_lines old ++ [line]) = old +:+ line) as Hj.
  { rewrite join_app, join_file_lines. cbn [join]. by rewrite str_app_nil_r. }
  assert (_switch h NoFault name on config σ
          = (Ok true, <[path := File (old +:+ line)]> σ)) as Hs.
  { rewrite (switch_run _ _ _ _ _ _ _ _ Hrc Hne Hpath Hdir). cbv zeta.
    fold old. by rewrite Hl, Hj. }
  split; [done|]. split; [done|]. split.
  - intros Hnone. rewrite Hs. subst old. unfold content_of. by rewrite Hnone.
  - intros Hold. rewrite <- Hj, <- Hl. apply file_lines_join.
    apply lines_ok_switch_lines; [apply nl_free_yes_no|right].
    split; [by eapply get_rcvar_nl_free|done].
Qed.

Lemma switch_appends_when_missing_witness :
  disable h0 NoFault "ntpd" None fs_dup
  = (Ok true,
     <[rc_conf := File (content_of fs_dup rc_conf +:+ assign "ntpd_enable" "NO" nl)]>
       fs_dup).
Proof.
  refine (proj1 (proj2 (switch_appends_when_missing h0 "ntpd" false None fs_dup
                          "ntpd_enable" rc_conf _ _ _ _ _))).
  - reflexivity.
  - done.
  - reflexivity.
  - done.
  - vm_compute. repeat constructor.
Defined.

(** C8 at an [rc.conf] whose last line has no line feed. The line
    [foo=bar] does not set [sshd_enable], and [enable] answers [True]; but
    the first line of the file read back is no longer [foo=bar]: the
    assignment has been glued to it. *)
Lemma enable_changes_open_line :
  let σ1 := (enable h0 NoFault "sshd" None fs_open).2 in
  (enable h0 NoFault "sshd" None fs_open).1 = Ok true ∧
  sets "sshd_enable" "foo=bar" = false ∧
  file_lines (content_of fs_open rc_conf) !! 0 = Some "foo=bar" ∧
  file_lines (content_of σ1 rc_conf) !! 0
  = Some ("foo=bar" +:+ assign "sshd_enable" "YES" nl) ∧
  bool_decide (file_lines (content_of σ1 rc_conf) !! 0 = Some "foo=bar") = false.
Proof. repeat split; vm_compute; reflexivity. Qed.



(** ** Calling twice *)

(** C1 at an [rc.conf] whose last line has no line feed: both calls of
    [enable] answer [True], the first glues the assignment to the last line,
    and the second, finding no line that starts with the rcvar, appends the
    assignment once more. *)
Lemma enable_twice_differs :
  let σ1 := (enable h0 NoFault "sshd" None fs_open).2 in
  let σ2 := (enable h0 NoFault "sshd" None σ1).2 in
  (enable h0 NoFault "sshd" None fs_open).1 = Ok true ∧
  (enable h0 NoFault "sshd" None σ1).1 = Ok true ∧
  content_of σ1 rc_conf = "foo=bar" +:+ assign "sshd_enable" "YES" nl ∧
  content_of σ2 rc_conf
  = "foo=bar" +:+ assign "sshd_enable" "YES" nl +:+ assign "sshd_enable" "YES" nl.
Proof. repeat split; vm_compute; reflexivity. Qed.

(** X1, beside C1. Idempotence where the code has it. For a service whose rcvar has no
    white space in it, and a file that is not there, is empty, ends in a line
    feed or already has a line for the rcvar, a second [enable] (or
    [disable]) with the same arguments answers [True] again and leaves the
    file system as the first call left it. *)
Theorem switch_twice_same (h : host) (name : string) (on : bool)
    (config : option string) (σ : gmap string node) (rcvar path : string) :
  _get_rcvar h name = Ok (PyStr rcvar) →
  rcvar ≠ "" →
  ws_free rcvar = true →
  config_path h config rcvar σ = Some path →
  σ !! path ≠ Some Dir →
  existsb (sets rcvar) (file_lines (content_of σ path)) = true
  ∨ content_of σ path = "" ∨ ends_nl (content_of σ path) = true →
  let out1 := _switch h NoFault name on config σ in
  let out2 := _switch h NoFault name on config out1.2 in
  out1.1 = Ok true ∧ out2.1 = Ok true ∧ out2.2 = out1.2.
Proof.
  intros Hrc Hne Hws Hpath Hdir Hcase out1 out2. subst out2 out1.
  rewrite (switch_run _ _ _ _ _ _ _ _ Hrc Hne Hpath Hdir). cbn [fst snd].
  set (nlines := switch_lines rcvar (yes_no on) (file_lines (content_of σ path))).
  rewrite (switch_run h NoFault name on config _ rcvar path Hrc Hne
             (config_path_insert _ _ _ _ _ _ Hpath Hdir))
    by by rewrite lookup_insert_eq.
  cbn [fst snd]. split; [done|]. split; [done|].
  rewrite content_of_insert, insert_insert_eq.
  rewrite file_lines_join.
  - subst nlines. by rewrite switch_lines_idem by (done || apply ws_free_yes_no).
  - apply lines_ok_switch_lines; [apply nl_free_yes_no|].
    destruct Hcase as [?|?]; [by left|right].
    split; [by apply ws_free_nl_free|done].
Qed.

Lemma switch_twice_same_witness :
  (enable h0 NoFault "sshd" None
     (enable h0 NoFault "sshd" None fs_dup).2).2
  = (enable h0 NoFault "sshd" None fs_dup).2.
Proof.
  refine (proj2 (proj2 (switch_twice_same h0 "sshd" true None fs_dup
                          "sshd_enable" rc_conf _ _ _ _ _ _))).
  - reflexivity.
  - done.
  - reflexivity.
  - reflexivity.
  - done.
  - left. reflexivity.
Defined.

(** X2, beside C1. The cron half of idempotence, as far as the state module decides it:
    [present] answers with the unchanged result, [Cron ... already present]
    and no changes, exactly when [cron.set_job] answers ['present'], and
    [absent] with [Cron ... already absent] exactly when [cron.rm_job]
    answers ['absent']. Whether a second call gets that answer is up to the
    cron execution module. *)
Theorem unchanged_iff_status_word {W : Type} (job : job_call W)
    (name user minute hour daymonth month dayweek : string) (w w' : W) :
  (present job name user minute hour daymonth month dayweek w
   = (Ok {| ret_name := name; ret_result := true; ret_changes := ∅;
            ret_comment := "Cron " +:+ name +:+ " already present" |}, w')
   ↔ job user minute hour daymonth month dayweek name w = (Ok "present", w')) ∧
  (absent job name user minute hour daymonth month dayweek w
   = (Ok {| ret_name := name; ret_result := true; ret_changes := ∅;
            ret_comment := "Cron " +:+ name +:+ " already absent" |}, w')
   ↔ job user minute hour daymonth month dayweek name w = (Ok "absent", w')).
Proof.
  assert (({[ user := name ]} : gmap string string) ≠ ∅) as Hne
    by apply insert_non_empty.
  split; split.
  - unfold present.
    destruct (job _ _ _ _ _ _ _ _) as [[data|e] w'']; [|done].
    intros [= Hr <-]. f_equal. f_equal. unfold present_ret in Hr.
    destruct (String.eqb_spec data "present") as [->|_]; [done|].
    destruct (String.eqb data "new"); [by injection Hr|].
    destruct (String.eqb data "updated"); [by injection Hr|done].
  - intros H. unfold present. by rewrite H.
  - unfold absent.
    destruct (job _ _ _ _ _ _ _ _) as [[data|e] w'']; [|done].
    intros [= Hr <-]. f_equal. f_equal. unfold absent_ret in Hr.
    destruct (String.eqb_spec data "absent") as [->|_]; [done|].
    destruct (String.eqb data "removed"); [by injection Hr|done].
  - intros H. unfold absent. by rewrite H.
Qed.

(** * More of the two modules *)

(** ** Splitting at a byte *)

Section SplitSep.

Implicit Types (s a b needle : string) (sep c : ascii).

Lemma contains_nil needle : contains needle "" = startswith needle "" || false.
Proof. reflexivity. Qed.

Lemma contains_cons needle c s :
  contains needle (String c s) = startswith needle (String c s) || contains needle s.
Proof. reflexivity. Qed.

Lemma contains_inv needle s :
  contains needle s = true → ∃ a b, s = a +:+ needle +:+ b.
Proof.
  induction s as [|c s IH].
  - rewrite contains_nil, orb_false_r. intros [t Ht]%startswith_inv. by exists "", t.
  - rewrite contains_cons. intros [H|H]%orb_true_iff.
    + apply startswith_inv in H as [t Ht]. by exists "", t.
    + destruct (IH H) as (a & b & ->). by exists (String c a), b.
Qed.

Lemma contains_app_r a needle b : contains needle (a +:+ needle +:+ b) = true.
Proof.
  induction a as [|c a IH].
  - rewrite str_app_nil_l.
    destruct (needle +:+ b) eqn:E.
    + by rewrite contains_nil, <- E, startswith_app.
    + by rewrite contains_cons, <- E, startswith_app.
  - rewrite str_app_cons, contains_cons, IH. apply orb_true_r.
Qed.

Lemma count_char_app c s t :
  count_char c (s +:+ t) = count_char c s + count_char c t.
Proof.
  induction s as [|c' s IH]; [done|]. rewrite str_app_cons. simpl.
  rewrite IH. lia.
Qed.

(** [s.split(sep, n)] has one piece more than the separators it used. *)
Lemma split_sep_length sep s n :
  length (split_sep sep s n) = 1 + min n (count_char sep s).
Proof.
  revert n. induction s as [|c s IH]; intros [|m]; try done.
  simpl. destruct (Ascii.eqb c sep).
  - simpl. rewrite IH. lia.
  - specialize (IH (S m)). destruct (split_sep sep s (S m)); simpl in *; lia.
Qed.

(** The pieces, put together again with the separator, are the string. *)
Lemma split_sep_concat sep s n :
  String.concat (String sep "") (split_sep sep s n) = s.
Proof.
  revert n. induction s as [|c s IH]; intros [|m]; try done.
  simpl. destruct (Ascii.eqb c sep) eqn:Hc.
  - apply Ascii.eqb_eq in Hc as ->. specialize (IH m).
    destruct (split_sep sep s m) as [|l ls] eqn:E.
    + pose proof (split_sep_length sep s m) as Hl. rewrite E in Hl. simpl in Hl. lia.
    + simpl in *. by rewrite IH.
  - specialize (IH (S m)).
    destruct (split_sep sep s (S m)) as [|l [|l' ls]] eqn:E; simpl in *.
    + pose proof (split_sep_length sep s (S m)) as Hl. rewrite E in Hl. simpl in Hl. lia.
    + by rewrite IH.
    + by rewrite <- IH.
Qed.

(** No piece but the last has the separator in it. *)
Lemma split_sep_pieces sep s n :
  ∀ i piece, split_sep sep s n !! i = Some piece →
             S i < length (split_sep sep s n) → count_char sep piece = 0.
Proof.
  revert n. induction s as [|c s IH]; intros [|m] i piece; simpl.
  - intros _ ?. lia.
  - intros _ ?. lia.
  - intros _ ?. lia.
  - destruct (Ascii.eqb c sep) eqn:Hc.
    + destruct i as [|i]; simpl; [by intros [= <-]|].
      intros Hi Hlen. apply (IH m i); [done|lia].
    + destruct (split_sep sep s (S m)) as [|l ls] eqn:E; simpl.
      * destruct i; simpl; [|done]. intros _ ?. lia.
      * destruct i as [|i]; simpl.
        -- intros [= <-] Hlen. simpl. rewrite Hc. simpl.
           apply (IH (S m) 0); rewrite E; [done|simpl; lia].
        -- intros Hi Hlen. apply (IH (S m) (S i)); rewrite E; [done|simpl; lia].
Qed.

End SplitSep.

(** ** The line [_get_rcvar] and [enabled] read *)

Section RcvarLine.

Implicit Types (h : host) (line rcvar state : string) (lines : list string).

Lemma rcvar_scan_line lines :
  rcvar_scan lines =
    match rcvar_line lines with
    | None => Ok PyNone
    | Some line =>
        match split_sep "="%char line 1 with
        | [rcvar; _] => Ok (PyStr rcvar)
        | _ => Raise ValueError
        end
    end.
Proof.
  induction lines as [|line lines IH]; [done|]. simpl.
  by destruct (contains _ line).
Qed.

Lemma enabled_scan_line lines :
  enabled_scan lines =
    match rcvar_line lines with
    | None => Ok false
    | Some line =>
        match split_sep "034"%char line 2 with
        | [_; state; _] => Ok (value_on state)
        | _ => Raise ValueError
        end
    end.
Proof.
  induction lines as [|line lines IH]; [done|]. simpl.
  by destruct (contains _ line).
Qed.

Lemma rcvar_line_Some lines line :
  rcvar_line lines = Some line →
  line ∈ lines ∧ contains ("_enable=" +:+ dq) line = true.
Proof.
  induction lines as [|l lines IH]; [done|]. simpl.
  destruct (contains _ l) eqn:Hc.
  - intros [= <-]. split; [left|done].
  - intros [??]%IH. split; [by right|done].
Qed.

(** A line with [_enable=] and a double quote in it has an equals sign and
    a double quote. *)
Lemma rcvar_line_counts line :
  contains ("_enable=" +:+ dq) line = true →
  1 ≤ count_char "="%char line ∧ 1 ≤ count_char "034"%char line.
Proof.
  intros (a & b & ->)%contains_inv. rewrite !count_char_app.
  simpl. lia.
Qed.

(** [rcvar, _ = line.split('=', 1)] on a line with an equals sign. *)
Lemma split_once sep s :
  1 ≤ count_char sep s →
  ∃ a b, split_sep sep s 1 = [a; b] ∧ s = a +:+ String sep b ∧
         count_char sep a = 0.
Proof.
  intros Hc.
  pose proof (split_sep_length sep s 1) as Hlen.
  pose proof (split_sep_concat sep s 1) as Hcat.
  pose proof (split_sep_pieces sep s 1 0) as Hp.
  destruct (split_sep sep s 1) as [|a [|b [|??]]]; cbn [length] in Hlen; try lia.
  exists a, b. split; [done|]. split.
  - by rewrite <- Hcat.
  - apply Hp; [done|simpl; lia].
Qed.

(** The unpacking of [enabled], a split at the first two double quotes, on
    a line that has two. *)
Lemma split_twice sep s :
  2 ≤ count_char sep s →
  ∃ a b c, split_sep sep s 2 = [a; b; c] ∧
           s = a +:+ String sep (b +:+ String sep c) ∧
           count_char sep a = 0 ∧ count_char sep b = 0.
Proof.
  intros Hc.
  pose proof (split_sep_length sep s 2) as Hlen.
  pose proof (split_sep_concat sep s 2) as Hcat.
  pose proof (split_sep_pieces sep s 2) as Hp.
  destruct (split_sep sep s 2) as [|a [|b [|c [|??]]]]; cbn [length] in Hlen; try lia.
  exists a, b, c. split; [done|]. split; [|split].
  - by rewrite <- Hcat.
  - apply (Hp 0); [done|simpl; lia].
  - apply (Hp 1); [done|simpl; lia].
Qed.

Lemma get_all_raises h e : get_all h = Raise e → e = CommandNotFoundError.
Proof.
  unfold get_all, _cmd. destruct (which h "service"); [done|]. by intros [= <-].
Qed.

Lemma available_raises h name e :
  available h name = Raise e → e = CommandNotFoundError.
Proof.
  unfold available. destruct (get_all h) eqn:E; [done|].
  intros [= <-]. by eapply get_all_raises.
Qed.

Lemma available_cmd h name b : available h name = Ok b → ∃ service, _cmd h = Ok service.
Proof.
  unfold available, get_all. destruct (_cmd h); [eauto|done].
Qed.

Lemma rcvar_scan_returns lines : ∃ v, rcvar_scan lines = Ok v.
Proof.
  rewrite rcvar_scan_line. destruct (rcvar_line lines) as [line|] eqn:E; [|eauto].
  apply rcvar_line_Some in E as [_ [Hc _]%rcvar_line_counts].
  destruct (split_once _ _ Hc) as (a & b & -> & _). eauto.
Qed.

(** [_get_rcvar] lets nothing escape but the missing executable: its
    unpacking never fails. *)
Lemma get_rcvar_raises h name e :
  _get_rcvar h name = Raise e → e = CommandNotFoundError.
Proof.
  unfold _get_rcvar. destruct (available h name) as [[]|e'] eqn:Hav; cbn.
  - destruct (available_cmd _ _ _ Hav) as [service ->]. cbn.
    destruct (rcvar_scan_returns
                (splitlines (cmd_run_stdout h (service +:+ " " +:+ name +:+ " rcvar"))))
      as [v ->]. done.
  - done.
  - intros [= <-]. by eapply available_raises.
Qed.

End RcvarLine.

(** ** Every run of [_switch] *)

Section Outcome.

Implicit Types (h : host) (σ : gmap string node) (rcvar path name : string).

(** A run of [_switch] either stops before it opens a file for writing, with
    [False] or an exception and the file system as it was, or it is a run of
    [switch_run]. *)
Lemma switch_outcome h flt name on config σ :
  _switch h flt name on config σ = (Ok false, σ) ∨
  _switch h flt name on config σ = (Raise CommandNotFoundError, σ) ∨
  _switch h flt name on config σ = (Raise IOError, σ) ∨
  ∃ rcvar path,
    _get_rcvar h name = Ok (PyStr rcvar) ∧ rcvar ≠ "" ∧
    config_path h config rcvar σ = Some path ∧ σ !! path ≠ Some Dir.
Proof.
  destruct (available h name) as [[]|e] eqn:Hav.
  - destruct (_get_rcvar h name) as [v|e] eqn:Hrc.
    + destruct (truthy v) eqn:Ht.
      * destruct v as [| |rcvar]; try done.
        assert (rcvar ≠ "") as Hne by by destruct rcvar.
        destruct (config_path h config rcvar σ) as [path|] eqn:Hp.
        -- destruct (decide (σ !! path = Some Dir)) as [Hd|Hd].
           ++ right. right. left. unfold _switch.
              rewrite Hav, Hrc, Ht. cbn [negb]. cbv zeta.
              pose proof (config_path_tests h config rcvar σ) as Hc.
              rewrite Hp in Hc. cbv zeta in Hc. destruct Hc as [-> ->].
              unfold path_exists, read_lines. by rewrite Hd.
           ++ right. right. right. by exists rcvar, path.
        -- left. unfold _switch. rewrite Hav, Hrc, Ht. cbn [negb]. cbv zeta.
           pose proof (config_path_tests h config rcvar σ) as Hc.
           rewrite Hp in Hc. cbv zeta in Hc. by rewrite Hc.
      * left. unfold _switch. by rewrite Hav, Hrc, Ht.
    + right. left. unfold _switch. rewrite Hav, Hrc.
      by rewrite (get_rcvar_raises _ _ _ Hrc).
  - left. unfold _switch. by rewrite Hav.
  - right. left. unfold _switch. rewrite Hav.
    by rewrite (available_raises _ _ _ Hav).
Qed.

End Outcome.

(** ** [rc.conf.d], and one value after another *)

Section Later.

Implicit Types (h : host) (σ : gmap string node).
Implicit Types (rcvar val line rest base t : string) (lines : list string).



Lemma rewrite_assign_other rcvar (v1 v2 : string) rest :
  ws_free rcvar = true → ws_free v1 = true → drop_word rest = rest →
  rewrite_line rcvar v2 (assign rcvar v1 rest) = assign rcvar v2 rest.
Proof.
  intros Hr Hv Hrest. unfold rewrite_line. rewrite sets_assign.
  set (w := rcvar +:+ "=" +:+ dq +:+ v1 +:+ dq).
  assert (assign rcvar v1 rest = w +:+ rest) as Hasg.
  { unfold assign, w. by rewrite !str_app_assoc. }
  assert (ws_free w = true) as Hw.
  { unfold w. rewrite !ws_free_app, Hr, Hv. done. }
  assert (w ≠ "") as Hne.
  { unfold w. intros [_ H]%str_app_eq_nil. done. }
  rewrite Hasg. unfold first_token.
  rewrite lstrip_ws_free, take_word_app by done.
  by rewrite drop_str_app.
Qed.

Lemma sets_rest rcvar line :
  ws_free rcvar = true → sets rcvar line = true →
  drop_word (drop_str (String.length (first_token line)) line)
  = drop_str (String.length (first_token line)) line.
Proof.
  intros Hr [t ->]%startswith_inv.
  set (line := (rcvar +:+ "=") +:+ t).
  assert (lstrip line = line) as Hl.
  { apply lstrip_ws_free; [by intros [_ ?]%str_app_eq_nil|].
    by rewrite ws_free_app, Hr. }
  pose proof (line_decomp line) as Hd.
  apply leading_ws_no_ws in Hl as [Hl|Hlw].
  { subst line. by apply str_app_eq_nil in Hl as [[_ ?]%str_app_eq_nil _]. }
  rewrite Hlw, str_app_nil_l in Hd.
  assert (drop_str (String.length (first_token line)) line
          = after_first_token line) as ->.
  { etrans; [|apply (drop_str_app (first_token line) (after_first_token line))].
    by rewrite <- Hd. }
  unfold after_first_token. apply drop_word_idem.
Qed.

Lemma rewrite_line_other rcvar (v1 v2 : string) line :
  ws_free rcvar = true → ws_free v1 = true →
  rewrite_line rcvar v2 (rewrite_line rcvar v1 line) = rewrite_line rcvar v2 line.
Proof.
  intros Hr Hv. unfold rewrite_line at 2 3.
  destruct (sets rcvar line) eqn:Hs.
  - apply rewrite_assign_other; try done. by apply (sets_rest rcvar).
  - unfold rewrite_line. by rewrite Hs.
Qed.

(** The list written for one value, rewritten for another, is the list
    written for the other. *)
Lemma switch_lines_other rcvar (v1 v2 : string) lines :
  ws_free rcvar = true → ws_free v1 = true →
  switch_lines rcvar v2 (switch_lines rcvar v1 lines)
  = switch_lines rcvar v2 lines.
Proof.
  intros Hr Hv. unfold switch_lines at 1.
  rewrite existsb_sets_switch_lines, List.app_nil_r.
  unfold switch_lines. rewrite fmap_app. f_equal.
  - rewrite <- list_fmap_compose. apply list_fmap_ext.
    intros i l _. simpl. by apply rewrite_line_other.
  - destruct (existsb _ _); [done|].
    simpl. f_equal. by apply rewrite_assign_other.
Qed.

Lemma switch_lines_value rcvar val lines :
  Forall (λ l, sets rcvar l = true → startswith (assign rcvar val "") l = true)
         (switch_lines rcvar val lines).
Proof.
  unfold switch_lines. apply Forall_app. split; [apply rewrite_line_value|].
  destruct (existsb _ _); [constructor|].
  repeat constructor. intros _. apply assign_startswith.
Qed.

End Later.

(** ** The listings, name by name *)

Section MoreListings.

Implicit Types (h : host) (σ : gmap string node) (s name line : string).
Implicit Types (svcs ret lines : list string).

Lemma get_enabled_loop_spec h σ svcs ret ret' :
  get_enabled_loop h σ svcs ret = Ok ret' →
  (∀ s, s ∈ ret' ↔
        s ∈ ret ∨ (s ∈ svcs ∧ path_exists σ ("/etc/rc.conf.d/" +:+ s) = true
                   ∧ enabled h s = Ok true)) ∧
  (NoDup ret → NoDup ret').
Proof.
  revert ret. induction svcs as [|svc svcs IH]; intros ret; simpl.
  - intros [= <-]. split; [|done]. intros s. rewrite elem_of_nil. tauto.
  - destruct (decide (svc ∈ ret)) as [Hin|Hin].
    { rewrite bool_decide_eq_true_2 by done. intros [Hm Hn]%IH. split; [|done].
      intros s. rewrite Hm, elem_of_cons. intuition (subst; auto). }
    rewrite bool_decide_eq_false_2 by done.
    destruct (path_exists σ ("/etc/rc.conf.d/" +:+ svc)) eqn:Hex; simpl.
    + destruct (enabled h svc) as [[]|e] eqn:Hen; [| |done].
      * intros [Hm Hn]%IH. split.
        -- intros s. rewrite Hm, elem_of_app, !elem_of_cons, elem_of_nil.
           intuition (subst; auto).
        -- intros Hnd. apply Hn, NoDup_app. split; [done|]. split.
           ++ intros x Hx. rewrite elem_of_cons, elem_of_nil.
              intros [->|[]]. done.
           ++ apply NoDup_singleton.
      * intros [Hm Hn]%IH. split; [|done].
        intros s. rewrite Hm, elem_of_cons. intuition (subst; auto; congruence).
    + intros [Hm Hn]%IH. split; [|done].
      intros s. rewrite Hm, elem_of_cons. intuition (subst; auto; congruence).
Qed.

Lemma get_enabled_loop_skip h σ svcs ret :
  (∀ s, s ∈ svcs → path_exists σ ("/etc/rc.conf.d/" +:+ s) = false) →
  get_enabled_loop h σ svcs ret = Ok ret.
Proof.
  induction svcs as [|svc svcs IH]; [done|]. intros Hno. simpl.
  rewrite (Hno svc) by left. simpl.
  rewrite IH by (intros s Hs; apply Hno; by right).
  by destruct (bool_decide _).
Qed.

Lemma endswith_inv p s : endswith p s = true → ∃ q, s = q +:+ p.
Proof.
  induction s as [|c s IH]; simpl.
  - rewrite orb_false_r. intros ->%String.eqb_eq. by exists "".
  - intros [->%String.eqb_eq|H]%orb_true_iff; [by exists ""|].
    destruct (IH H) as [q ->]. by exists (String c q).
Qed.

Lemma basename_app dir name :
  contains "/" name = false → basename (dir +:+ "/" +:+ name) = name.
Proof.
  intros Hn. induction dir as [|c dir IH].
  - rewrite str_app_nil_l. change ("/" +:+ name) with (String "/"%char name).
    simpl. by rewrite Hn.
  - rewrite str_app_cons. simpl. by rewrite contains_app_r.
Qed.

Lemma rcscript_scan_spec name lines :
  match rcscript_scan name lines with
  | Some line =>
      ∃ before after,
        lines = before ++ line :: after ∧
        Forall (λ l, endswith ("/" +:+ name) l = false) before ∧
        endswith ("/" +:+ name) line = true
  | None => Forall (λ l, endswith ("/" +:+ name) l = false) lines
  end.
Proof.
  induction lines as [|l lines IH]; simpl; [constructor|].
  destruct (endswith ("/" +:+ name) l) eqn:He.
  - by exists [], lines.
  - destruct (rcscript_scan name lines) as [line|].
    + destruct IH as (before & after & -> & Hb & Hl).
      exists (l :: before), after. repeat split; [by constructor|done].
    + by constructor.
Qed.

Lemma isupper_filter lines s :
  s ∈ filter (λ srv, negb (isupper srv)) lines ↔ s ∈ lines ∧ isupper s = false.
Proof.
  rewrite list_elem_of_filter. destruct (isupper s); simpl; intuition congruence.
Qed.

End MoreListings.

(** ** A last line without its line feed *)

Section Glued.

Implicit Types (h : host) (s l r z t c : string) (lines : list string).

Lemma prefix_eq_short s r z :
  count_char "="%char r = 0 →
  String.length s < String.length r →
  startswith (s +:+ "=") (r +:+ z) = false.
Proof.
  unfold startswith. revert r. induction s as [|a s IH]; intros [|b r] Hr Hlen;
    simpl in Hlen; try lia.
  - rewrite str_app_nil_l, str_app_cons. cbn [String.prefix].
    simpl in Hr. destruct (ascii_dec "=" b) as [<-|]; [done|done].
  - rewrite !str_app_cons. cbn [String.prefix].
    destruct (ascii_dec a b); [|done]. apply IH; [|lia].
    simpl in Hr. lia.
Qed.

(** An assignment glued to the end of a line that does not set the variable
    makes no line that sets it. *)
Lemma prefix_glued s l r z :
  count_char "="%char r = 0 →
  String.length s ≤ String.length r →
  (l = "" → String.length s < String.length r) →
  startswith (s +:+ "=") l = false →
  startswith (s +:+ "=") (l +:+ r +:+ z) = false.
Proof.
  intros Hr. revert s. induction l as [|c l IH]; intros s Hle Hlt Hs.
  - rewrite str_app_nil_l. apply prefix_eq_short; auto.
  - unfold startswith in *. destruct s as [|a s].
    + rewrite str_app_nil_l in *. rewrite str_app_cons.
      cbn [String.prefix] in *. destruct (ascii_dec "=" c); [|done].
      by destruct l.
    + rewrite !str_app_cons in *. cbn [String.prefix] in *.
      destruct (ascii_dec a c); [|done].
      simpl in Hle. apply IH; [lia| intros _; lia | done].
Qed.

Lemma sets_glued rcvar l z :
  count_char "="%char rcvar = 0 → l ≠ "" → sets rcvar l = false →
  sets rcvar (l +:+ rcvar +:+ z) = false.
Proof.
  intros Hr Hl Hs. unfold sets. by apply prefix_glued.
Qed.

(** Text added after a last line that has no line feed continues that
    line. *)
Lemma file_lines_glue c t :
  c ≠ "" → ends_nl c = false → t ≠ "" → nl_last t = true →
  ∃ init last,
    file_lines c = init ++ [last] ∧ file_lines (c +:+ t) = init ++ [last +:+ t].
Proof.
  intros Hc Hend Ht Hnl. induction c as [|a c IH]; [done|].
  rewrite str_app_cons. simpl. destruct (is_nl a) eqn:Ha.
  - destruct c as [|a' c']; [simpl in Hend; congruence|].
    destruct IH as (init & last & -> & ->); [done|done|].
    by exists (nl :: init), last.
  - destruct c as [|a' c'].
    + rewrite str_app_nil_l, (file_lines_single t) by done.
      by exists [], (String a "").
    + destruct IH as (init & last & -> & ->); [done|done|].
      destruct init as [|i init]; simpl.
      * by exists [], (String a last).
      * by exists (String a i :: init), last.
Qed.

Lemma get_rcvar_no_eq h name rcvar :
  _get_rcvar h name = Ok (PyStr rcvar) → count_char "="%char rcvar = 0.
Proof.
  intros Hrc. pose proof (get_rcvar_available _ _ _ Hrc) as Hav.
  destruct (available_cmd _ _ _ Hav) as [service Hcmd].
  unfold _get_rcvar in Hrc. rewrite Hav, Hcmd in Hrc. cbn in Hrc.
  rewrite rcvar_scan_line in Hrc.
  destruct (rcvar_line _) as [line|] eqn:E; [|done].
  apply rcvar_line_Some in E as [_ [Hc _]%rcvar_line_counts].
  destruct (split_once _ _ Hc) as (a & b & Hsp & _ & Ha).
  rewrite Hsp in Hrc. by injection Hrc as <-.
Qed.

End Glued.

(** ** What [_get_rcvar] and [enabled] read *)

(** X3. For an available service [_get_rcvar] returns what stands before the
    first equals sign of the first line of the [rcvar] output that has
    [_enable=] and a double quote in it, and [None] when the output has no
    such line. The name it returns has no equals sign in it, and the
    unpacking of the split never raises. *)
Theorem get_rcvar_reads_first_line (h : host) (name service : string) :
  _cmd h = Ok service →
  available h name = Ok true →
  match rcvar_line
          (splitlines (cmd_run_stdout h (service +:+ " " +:+ name +:+ " rcvar")))
  with
  | None => _get_rcvar h name = Ok PyNone
  | Some line =>
      ∃ rcvar rest,
        line = rcvar +:+ "=" +:+ rest ∧
        count_char "="%char rcvar = 0 ∧
        _get_rcvar h name = Ok (PyStr rcvar)
  end.
Proof.
  intros Hcmd Hav. unfold _get_rcvar. rewrite Hav, Hcmd. cbn.
  rewrite rcvar_scan_line.
  destruct (rcvar_line _) as [line|] eqn:E; [|done].
  apply rcvar_line_Some in E as [_ [Hc _]%rcvar_line_counts].
  destruct (split_once _ _ Hc) as (a & b & -> & Hline & Ha).
  by exists a, b.
Qed.

Lemma get_rcvar_reads_first_line_witness :
  ∃ rcvar rest,
    assign "sshd_enable" "YES" "" = rcvar +:+ "=" +:+ rest ∧
    count_char "="%char rcvar = 0 ∧
    _get_rcvar h0 "sshd" = Ok (PyStr rcvar).
Proof.
  exact (get_rcvar_reads_first_line h0 "sshd" "/usr/sbin/service" eq_refl eq_refl).
Defined.

(** X4. For an available service [enabled] reads the same line as
    [_get_rcvar]: it answers [False] when there is none, raises [ValueError]
    when the line has a single double quote, and otherwise answers whether
    the text between the first two double quotes is, in any case of letters,
    one of [yes], [true], [on], [1]. *)
Theorem enabled_reads_first_line (h : host) (name service : string) :
  _cmd h = Ok service →
  available h name = Ok true →
  match rcvar_line
          (splitlines (cmd_run_stdout h (service +:+ " " +:+ name +:+ " rcvar")))
  with
  | None => enabled h name = Ok false
  | Some line =>
      1 ≤ count_char "034"%char line ∧
      (count_char "034"%char line = 1 → enabled h name = Raise ValueError) ∧
      (2 ≤ count_char "034"%char line →
       ∃ a state rest,
         line = a +:+ dq +:+ state +:+ dq +:+ rest ∧
         count_char "034"%char a = 0 ∧ count_char "034"%char state = 0 ∧
         enabled h name = Ok (value_on state))
  end.
Proof.
  intros Hcmd Hav. unfold enabled. rewrite Hav, Hcmd. cbn.
  rewrite enabled_scan_line.
  destruct (rcvar_line _) as [line|] eqn:E; [|done].
  apply rcvar_line_Some in E as [_ [_ Hc]%rcvar_line_counts].
  split; [done|]. split.
  - intros H1. pose proof (split_sep_length "034"%char line 2) as Hlen.
    rewrite H1 in Hlen.
    by destruct (split_sep "034"%char line 2) as [|? [|? [|? [|??]]]].
  - intros H2. destruct (split_twice _ _ H2) as (a & b & c & -> & Hline & Ha & Hb).
    by exists a, b, c.
Qed.

Lemma enabled_reads_first_line_witness :
  enabled h_torn "sshd" = Raise ValueError.
Proof.
  refine (proj1 (proj2 (enabled_reads_first_line h_torn "sshd" "/usr/sbin/service"
                          eq_refl eq_refl)) eq_refl).
Defined.

(** ** Where [_switch] stops, and what it leaves alone *)

(** X5. When the [rcvar] output of an available service has no line with
    [_enable=] and a double quote in it, [enable] and [disable] answer
    [False] and write nothing. *)
Theorem switch_without_rcvar (h : host) (flt : fault) (name service : string)
    (config : option string) (σ : gmap string node) :
  _cmd h = Ok service →
  available h name = Ok true →
  rcvar_line
    (splitlines (cmd_run_stdout h (service +:+ " " +:+ name +:+ " rcvar")))
  = None →
  enable h flt name config σ = (Ok false, σ) ∧
  disable h flt name config σ = (Ok false, σ).
Proof.
  intros Hcmd Hav Hnone.
  assert (_get_rcvar h name = Ok PyNone) as Hrc.
  { unfold _get_rcvar. rewrite Hav, Hcmd. cbn.
    by rewrite rcvar_scan_line, Hnone. }
  unfold enable, disable, _switch. by rewrite Hav, Hrc.
Qed.

Lemma switch_without_rcvar_witness :
  enable h_torn NoFault "ntpd" None fs_open = (Ok false, fs_open) ∧
  disable h_torn NoFault "ntpd" None fs_open = (Ok false, fs_open).
Proof.
  exact (switch_without_rcvar h_torn NoFault "ntpd" "/usr/sbin/service" None
           fs_open eq_refl eq_refl eq_refl).
Defined.

(** X6. With the empty string for [config], given or configured, and no
    directory [/etc/rc.conf.d] (nothing there, or a regular file), [enable]
    and [disable] of a service that has an rcvar answer [False] and write
    nothing. *)
Theorem switch_without_rc_conf_d (h : host) (flt : fault) (name rcvar : string)
    (config : option string) (σ : gmap string node) :
  _get_rcvar h name = Ok (PyStr rcvar) →
  rcvar ≠ "" →
  default (config_option h) config = "" →
  σ !! "/etc/rc.conf.d" ≠ Some Dir →
  enable h flt name config σ = (Ok false, σ) ∧
  disable h flt name config σ = (Ok false, σ).
Proof.
  intros Hrc Hne Hcfg Hdir.
  assert (config_path h config rcvar σ = None) as Hp.
  { unfold config_path, path_isdir. cbv zeta. rewrite Hcfg. cbn.
    by destruct (σ !! "/etc/rc.conf.d") as [[]|]. }
  pose proof (config_path_tests h config rcvar σ) as Ht.
  rewrite Hp in Ht. cbv zeta in Ht.
  unfold enable, disable, _switch.
  rewrite (get_rcvar_available _ _ _ Hrc), Hrc, (truthy_str _ Hne).
  cbn [negb]. cbv zeta. by rewrite Ht.
Qed.

Lemma switch_without_rc_conf_d_witness :
  enable h0 NoFault "sshd" (Some "") fs_open = (Ok false, fs_open) ∧
  disable h0 NoFault "sshd" (Some "") fs_open = (Ok false, fs_open).
Proof.
  refine (switch_without_rc_conf_d h0 NoFault "sshd" "sshd_enable" (Some "")
            fs_open _ _ _ _); done.
Defined.

(** X7. No run of [enable] or [disable] lets [IndexError] or [ValueError]
    escape: what they raise is [CommandNotFoundError] or [IOError], and a
    call that raises has changed the file system only if the write itself
    failed on the way. A call that answers [False] has changed nothing, and
    [True] is only answered when the disk did not fail. *)
Theorem switch_raises_only (h : host) (flt : fault) (name : string) (on : bool)
    (config : option string) (σ σ' : gmap string node) (r : result bool) :
  _switch h flt name on config σ = (r, σ') →
  match r with
  | Ok true => flt = NoFault
  | Ok false => σ' = σ
  | Raise e =>
      (e = CommandNotFoundError ∨ e = IOError) ∧
      ((∀ n, flt ≠ WriteFails n) → σ' = σ)
  end.
Proof.
  intros H.
  destruct (switch_outcome h flt name on config σ)
    as [H'|[H'|[H'|(rcvar & path & Hrc & Hne & Hp & Hd)]]].
  - rewrite H' in H. by injection H as <- <-.
  - rewrite H' in H. injection H as <- <-. auto.
  - rewrite H' in H. injection H as <- <-. auto.
  - rewrite (switch_run _ _ _ _ _ _ _ _ Hrc Hne Hp Hd) in H. cbv zeta in H.
    destruct flt as [| |n]; injection H as <- <-; try done.
    + auto.
    + split; [auto|]. intros Hn. by destruct (Hn n).
Qed.

Lemma switch_raises_only_witness :
  (IOError = CommandNotFoundError ∨ IOError = IOError) ∧
  ((∀ n, WriteFails 3 ≠ WriteFails n) →
   (enable h0 (WriteFails 3) "sshd" None fs_dup).2 = fs_dup).
Proof.
  apply (switch_raises_only h0 (WriteFails 3) "sshd" true None fs_dup
           (enable h0 (WriteFails 3) "sshd" None fs_dup).2 (Raise IOError)).
  reflexivity.
Defined.


(** ** Which file, and what it holds afterwards *)



(** X10. The last call wins. For a service whose rcvar has no white space in
    it, and a file that is not there, is empty, ends in a line feed or
    already has a line for the rcvar, [enable] after [disable], or [disable]
    after [enable], answers [True] and leaves the file system that the
    second call alone would have left. *)
Theorem switch_last_wins (h : host) (name : string) (on1 on2 : bool)
    (config : option string) (σ : gmap string node) (rcvar path : string) :
  _get_rcvar h name = Ok (PyStr rcvar) →
  rcvar ≠ "" →
  ws_free rcvar = true →
  config_path h config rcvar σ = Some path →
  σ !! path ≠ Some Dir →
  existsb (sets rcvar) (file_lines (content_of σ path)) = true
  ∨ content_of σ path = "" ∨ ends_nl (content_of σ path) = true →
  let out1 := _switch h NoFault name on1 config σ in
  let out2 := _switch h NoFault name on2 config out1.2 in
  out1.1 = Ok true ∧ out2.1 = Ok true ∧
  out2.2 = (_switch h NoFault name on2 config σ).2.
Proof.
  intros Hrc Hne Hws Hpath Hdir Hcase out1 out2. subst out2 out1.
  rewrite !(switch_run _ _ _ _ _ σ _ _ Hrc Hne Hpath Hdir). cbn [fst snd].
  set (nlines := switch_lines rcvar (yes_no on1) (file_lines (content_of σ path))).
  rewrite (switch_run h NoFault name on2 config _ rcvar path Hrc Hne
             (config_path_insert _ _ _ _ _ _ Hpath Hdir))
    by by rewrite lookup_insert_eq.
  cbn [fst snd]. split; [done|]. split; [done|].
  rewrite content_of_insert, insert_insert_eq.
  rewrite file_lines_join.
  - subst nlines. by rewrite switch_lines_other by (done || apply ws_free_yes_no).
  - apply lines_ok_switch_lines; [apply nl_free_yes_no|].
    destruct Hcase as [?|?]; [by left|right].
    split; [by apply ws_free_nl_free|done].
Qed.

Lemma switch_last_wins_witness :
  (disable h0 NoFault "sshd" None (enable h0 NoFault "sshd" None fs_dup).2).2
  = (disable h0 NoFault "sshd" None fs_dup).2.
Proof.
  refine (proj2 (proj2 (switch_last_wins h0 "sshd" true false None fs_dup
                          "sshd_enable" rc_conf _ _ _ _ _ _))).
  - reflexivity.
  - done.
  - reflexivity.
  - reflexivity.
  - done.
  - left. reflexivity.
Defined.

(** X11. The write takes effect. After a successful [enable] or [disable] on
    a file that was not there, was empty, ended in a line feed or had a line
    for the rcvar, the file read back has a line that sets the rcvar, and
    every line that sets it starts with [rcvar="YES"] (or [rcvar="NO"]). *)
Theorem switch_sets_value (h : host) (name : string) (on : bool)
    (config : option string) (σ : gmap string node) (rcvar path : string) :
  _get_rcvar h name = Ok (PyStr rcvar) →
  rcvar ≠ "" →
  config_path h config rcvar σ = Some path →
  σ !! path ≠ Some Dir →
  existsb (sets rcvar) (file_lines (content_of σ path)) = true
  ∨ content_of σ path = "" ∨ ends_nl (content_of σ path) = true →
  let out := _switch h NoFault name on config σ in
  let lines' := file_lines (content_of out.2 path) in
  out.1 = Ok true ∧
  existsb (sets rcvar) lines' = true ∧
  Forall (λ l, sets rcvar l = true →
               startswith (assign rcvar (yes_no on) "") l = true) lines'.
Proof.
  intros Hrc Hne Hpath Hdir Hcase out lines'. subst lines' out.
  rewrite (switch_run _ _ _ _ _ _ _ _ Hrc Hne Hpath Hdir). cbn [fst snd].
  rewrite content_of_insert, file_lines_join.
  - split; [done|]. split; [apply existsb_sets_switch_lines|apply switch_lines_value].
  - apply lines_ok_switch_lines; [apply nl_free_yes_no|].
    destruct Hcase as [?|?]; [by left|right].
    split; [by eapply get_rcvar_nl_free|done].
Qed.

Lemma switch_sets_value_witness :
  existsb (sets "ntpd_enable")
    (file_lines (content_of (enable h0 NoFault "ntpd" None fs_dup).2 rc_conf))
  = true.
Proof.
  refine (proj1 (proj2 (switch_sets_value h0 "ntpd" true None fs_dup
                          "ntpd_enable" rc_conf _ _ _ _ _))).
  - reflexivity.
  - done.
  - reflexivity.
  - done.
  - right. right. reflexivity.
Defined.

(** ** What the listings hold *)

(** X12. [get_all] lists the lines of [service -l] that are not upper case,
    each as often as the output has it: a placeholder such as [DAEMON] is
    left out, a name with a lower-case letter or with no letter at all (the
    empty line too) is kept, and [available] says whether a name is among
    them. No listed name has a line feed in it. *)
Theorem get_all_lists_lower_lines (h : host) (service : string) :
  _cmd h = Ok service →
  let lines := splitlines (cmd_run h (service +:+ " -l")) in
  ∃ all,
    get_all h = Ok all ∧
    all ≡ₚ filter (λ srv, negb (isupper srv)) lines ∧
    (∀ s, s ∈ all ↔ s ∈ lines ∧ isupper s = false) ∧
    (∀ s, available h s = Ok (bool_decide (s ∈ lines ∧ isupper s = false))) ∧
    (∀ s, s ∈ all → nl_free s = true).
Proof.
  intros Hcmd lines.
  assert (get_all h = Ok (sorted (filter (λ srv, negb (isupper srv)) lines)))
    as Hall by (unfold get_all; by rewrite Hcmd).
  assert (∀ s, s ∈ sorted (filter (λ srv, negb (isupper srv)) lines)
               ↔ s ∈ lines ∧ isupper s = false) as Hmem.
  { intros s. by rewrite elem_of_sorted, isupper_filter. }
  eexists. split; [exact Hall|]. split; [apply merge_sort_Permutation|].
  split; [done|]. split.
  - intros s. unfold available. rewrite Hall. cbn. f_equal.
    apply bool_decide_ext, Hmem.
  - intros s [Hs _]%Hmem.
    pose proof (splitlines_nl_free (cmd_run h (service +:+ " -l"))) as Hf.
    rewrite Forall_forall in Hf. by apply Hf.
Qed.

Lemma get_all_lists_lower_lines_witness :
  ∃ all,
    get_all h0 = Ok all ∧
    all ≡ₚ filter (λ srv, negb (isupper srv)) ["DAEMON"; "sshd"; "ntpd"].
Proof.
  destruct (get_all_lists_lower_lines h0 "/usr/sbin/service" eq_refl)
    as (all & Hall & Hperm & _).
  exists all. split; [exact Hall|exact Hperm].
Defined.

(** X13. [get_enabled] lists the base name of every line of [service -e]
    and, beside them, the available services that have a file under
    [/etc/rc.conf.d] and for which [enabled] answers [True], and nothing
    else; the workaround adds no name that is already listed. When no
    available service has a file under [/etc/rc.conf.d], the listing is the
    sorted base names alone and [enabled] is not asked. *)
Theorem get_enabled_lists (h : host) (σ : gmap string node)
    (service : string) (all : list string) :
  _cmd h = Ok service →
  get_all h = Ok all →
  let listed := basename <$> splitlines (cmd_run h (service +:+ " -e")) in
  (∀ en, get_enabled h σ = Ok en →
     (∀ s, s ∈ en ↔
           s ∈ listed ∨
           (s ∈ all ∧ path_exists σ ("/etc/rc.conf.d/" +:+ s) = true
            ∧ enabled h s = Ok true)) ∧
     (NoDup listed → NoDup en)) ∧
  ((∀ s, s ∈ all → path_exists σ ("/etc/rc.conf.d/" +:+ s) = false) →
   get_enabled h σ = Ok (sorted listed)).
Proof.
  intros Hcmd Hall listed. split.
  - intros en. unfold get_enabled. rewrite Hcmd, Hall. cbn. fold listed.
    destruct (get_enabled_loop h σ all listed) as [ret'|e] eqn:Hloop; [|done].
    cbn. intros [= <-]. apply get_enabled_loop_spec in Hloop as [Hm Hn]. split.
    + intros s. by rewrite elem_of_sorted.
    + intros Hnd. by apply NoDup_sorted, Hn.
  - intros Hno. unfold get_enabled. rewrite Hcmd, Hall. cbn. fold listed.
    by rewrite (get_enabled_loop_skip _ _ _ _ Hno).
Qed.

Lemma get_enabled_lists_witness :
  get_enabled h_torn fs_open = Ok ["sshd"].
Proof.
  refine (proj2 (get_enabled_lists h_torn fs_open "/usr/sbin/service"
                   ["ntpd"; "sshd"] eq_refl eq_refl) _).
  intros s. rewrite !elem_of_cons, elem_of_nil. by intros [->|[->|[]]].
Defined.

(** X14. [_get_rcscript] returns the first line of [service -r] that ends
    with a slash and the name, and [None] when no line does. The line it
    returns is a directory part, a slash and the name, so for a name without
    a slash its base name is the name. *)
Theorem get_rcscript_finds (h : host) (name service : string) :
  _cmd h = Ok service →
  let lines := splitlines (cmd_run_stdout h (service +:+ " -r")) in
  ∃ r,
    _get_rcscript h name = Ok r ∧
    match r with
    | Some line =>
        (∃ before after,
           lines = before ++ line :: after ∧
           Forall (λ l, endswith ("/" +:+ name) l = false) before) ∧
        (∃ dir, line = dir +:+ "/" +:+ name) ∧
        (contains "/" name = false → basename line = name)
    | None => Forall (λ l, endswith ("/" +:+ name) l = false) lines
    end.
Proof.
  intros Hcmd lines. unfold _get_rcscript. rewrite Hcmd. cbn. fold lines.
  eexists. split; [reflexivity|].
  pose proof (rcscript_scan_spec name lines) as Hs.
  destruct (rcscript_scan name lines) as [line|]; [|done].
  destruct Hs as (before & after & Hl & Hb & [dir ->]%endswith_inv).
  split; [by exists before, after|]. split; [by exists dir|].
  apply basename_app.
Qed.

Lemma get_rcscript_finds_witness :
  ∃ r, _get_rcscript h_rc "sshd" = Ok r ∧ r = Some "/etc/rc.d/sshd".
Proof.
  destruct (get_rcscript_finds h_rc "sshd" "/usr/sbin/service" eq_refl)
    as (r & Hr & _).
  exists r. split; [exact Hr|].
  assert (Ok r = Ok (Some "/etc/rc.d/sshd")) as [= ->] by by rewrite <- Hr.
  reflexivity.
Defined.

(** ** What [enable] writes and [enabled] reads *)

Section Written.

Implicit Types (a b s : string) (sep : ascii).

Lemma split_sep_app sep a b n :
  count_char sep a = 0 →
  split_sep sep (a +:+ String sep b) (S n) = a :: split_sep sep b n.
Proof.
  induction a as [|c a IH].
  - intros _. rewrite str_app_nil_l. simpl. by rewrite Ascii.eqb_refl.
  - rewrite str_app_cons. simpl.
    destruct (Ascii.eqb c sep) eqn:Hc; [done|]. intros Ha. by rewrite IH.
Qed.

Lemma count_char_yes_no sep on : sep = "034"%char → count_char sep (yes_no on) = 0.
Proof. intros ->. by destruct on. Qed.

Lemma value_on_yes_no on : value_on (yes_no on) = on.
Proof. by destruct on. Qed.

End Written.

(** X15. What [enable] and [disable] write is what [enabled] reads. When the
    line of the [rcvar] output that counts is an assignment as [_switch]
    writes it, [rcvar="YES"] or [rcvar="NO"] with anything after it,
    [enabled] answers [True] for [YES] and [False] for [NO], [disabled] the
    opposite, and [_get_rcvar] returns the rcvar. *)
Theorem enabled_reads_what_switch_writes (h : host) (name service : string)
    (rcvar rest : string) (on : bool) :
  _cmd h = Ok service →
  available h name = Ok true →
  rcvar_line
    (splitlines (cmd_run_stdout h (service +:+ " " +:+ name +:+ " rcvar")))
  = Some (assign rcvar (yes_no on) rest) →
  count_char "034"%char rcvar = 0 →
  count_char "="%char rcvar = 0 →
  enabled h name = Ok on ∧
  disabled h name = Ok (negb on) ∧
  _get_rcvar h name = Ok (PyStr rcvar).
Proof.
  intros Hcmd Hav Hline Hdq Heq.
  assert (enabled h name = Ok on) as Hen.
  { unfold enabled. rewrite Hav, Hcmd. cbn. rewrite enabled_scan_line, Hline.
    unfold assign. rewrite <- str_app_assoc.
    change (dq +:+ yes_no on +:+ dq +:+ rest)
      with (String "034"%char (yes_no on +:+ String "034"%char rest)).
    rewrite split_sep_app
      by (rewrite count_char_app; simpl; lia).
    rewrite split_sep_app by by apply count_char_yes_no.
    destruct rest; simpl; by rewrite value_on_yes_no. }
  split; [done|]. split.
  - unfold disabled. by rewrite Hen.
  - unfold _get_rcvar. rewrite Hav, Hcmd. cbn. rewrite rcvar_scan_line, Hline.
    unfold assign.
    change ("=" +:+ dq +:+ yes_no on +:+ dq +:+ rest)
      with (String "="%char (dq +:+ yes_no on +:+ dq +:+ rest)).
    rewrite split_sep_app by done. by destruct (dq +:+ _).
Qed.

Lemma enabled_reads_what_switch_writes_witness :
  enabled h0 "ntpd" = Ok false ∧
  disabled h0 "ntpd" = Ok true ∧
  _get_rcvar h0 "ntpd" = Ok (PyStr "ntpd_enable").
Proof.
  exact (enabled_reads_what_switch_writes h0 "ntpd" "/usr/sbin/service"
           "ntpd_enable" "" false eq_refl eq_refl eq_refl eq_refl eq_refl).
Defined.

(** X16. Where the write takes no effect. On a file that has no line for
    the rcvar and whose last line has no line feed, a call of [enable] or
    [disable] that answers [True] glues the assignment to that last line:
    the file read back has as many lines as before and none of them sets
    the rcvar. *)
Theorem switch_glues_to_open_line (h : host) (name : string) (on : bool)
    (config : option string) (σ : gmap string node) (rcvar path : string) :
  _get_rcvar h name = Ok (PyStr rcvar) →
  rcvar ≠ "" →
  config_path h config rcvar σ = Some path →
  σ !! path ≠ Some Dir →
  Forall (λ line, sets rcvar line = false) (file_lines (content_of σ path)) →
  content_of σ path ≠ "" →
  ends_nl (content_of σ path) = false →
  let out := _switch h NoFault name on config σ in
  let lines' := file_lines (content_of out.2 path) in
  out.1 = Ok true ∧
  length lines' = length (file_lines (content_of σ path)) ∧
  existsb (sets rcvar) lines' = false.
Proof.
  intros Hrc Hne Hpath Hdir Hno Hc Hend out lines'. subst lines' out.
  rewrite (switch_run _ _ _ _ _ _ _ _ Hrc Hne Hpath Hdir). cbn [fst snd].
  rewrite content_of_insert. unfold switch_lines.
  rewrite (rewrite_line_id _ _ _ Hno), (proj2 (existsb_sets_false _ _) Hno).
  rewrite join_app, join_file_lines. cbn [join]. rewrite str_app_nil_r.
  destruct (assign_shape rcvar (yes_no on) (get_rcvar_nl_free _ _ _ Hrc)
              (nl_free_yes_no on)) as [Ha1 Ha2].
  destruct (file_lines_glue _ _ Hc Hend Ha1 Ha2) as (init & last & Hl & ->).
  rewrite Hl in Hno |- *. apply Forall_app in Hno as [Hinit Hlast].
  inversion Hlast as [|?? Hs _]; subst.
  split; [done|]. split; [by rewrite !length_app|].
  rewrite existsb_app, (proj2 (existsb_sets_false _ _) Hinit). cbn.
  rewrite orb_false_r. unfold assign.
  apply sets_glued; [by eapply get_rcvar_no_eq| |done].
  pose proof (lines_ok_file_lines (content_of σ path)) as Hok.
  rewrite Hl in Hok. clear -Hok. induction init as [|i init IH].
  - by destruct Hok as (? & _).
  - apply IH. by destruct Hok as (_ & _ & _ & ?).
Qed.

Lemma switch_glues_to_open_line_witness :
  (enable h0 NoFault "sshd" None fs_open).1 = Ok true ∧
  existsb (sets "sshd_enable")
    (file_lines (content_of (enable h0 NoFault "sshd" None fs_open).2 rc_conf))
  = false.
Proof.
  destruct (switch_glues_to_open_line h0 "sshd" true None fs_open
              "sshd_enable" rc_conf) as (H1 & _ & H3);
    [reflexivity | done | reflexivity | done | | done | reflexivity |].
  - vm_compute. repeat constructor.
  - split; [exact H1|exact H3].
Defined.
